(** * Verification of the resume-mate profile model, store and merge flow

    Shallow embedding of [src/resume_mate/core/models.py] (pydantic models
    validated from JSON-like mappings), of the dump used by the profile store,
    of [ResumeAgent.merge_profile] and the [update] command, and of
    [extract_text_from_file]. *)

From Stdlib Require Import String Ascii List Bool Arith Lia ZArith.
Import ListNotations.
Open Scope string_scope.
Open Scope list_scope.

Set Warnings "-register-all".

(** ** JSON-like values: what [yaml.safe_load] and [json.loads] produce *)

Inductive json : Type :=
| JNull
| JBool (b : bool)
| JNum (z : Z)
| JStr (s : string)
| JList (l : list json)
| JObj (fields : list (string * json)).

Definition obj := list (string * json).

(** Dictionary lookup; a Python dict has unique keys, so the first hit is the
    only one. *)
Fixpoint lookup (k : string) (o : obj) : option json :=
  match o with
  | [] => None
  | (k', v) :: o' => if String.eqb k k' then Some v else lookup k o'
  end.

(** ** Validation results with accumulated errors (pydantic's ValidationError) *)

Inductive loc_item : Type :=
| LKey (k : string)
| LIdx (i : nat).

Inductive err_kind : Type :=
| missing
| string_type
| list_type
| model_type
| url_type
| url_parsing.

Record error : Type := mk_error { err_loc : list loc_item; err_type : err_kind }.

Inductive res (A : Type) : Type :=
| Ok (a : A)
| Err (es : list error).
Arguments Ok {A} a.
Arguments Err {A} es.

Definition fmap {A B} (f : A -> B) (r : res A) : res B :=
  match r with Ok a => Ok (f a) | Err es => Err es end.

(** Applicative combination: pydantic validates every field and reports the
    errors of all of them, in field order. *)
Definition ap {A B} (rf : res (A -> B)) (ra : res A) : res B :=
  match rf, ra with
  | Ok f, Ok a => Ok (f a)
  | Ok _, Err e => Err e
  | Err e, Ok _ => Err e
  | Err e1, Err e2 => Err (e1 ++ e2)
  end.

Notation "f <$> r" := (fmap f r) (at level 61, left associativity).
Notation "rf <*> ra" := (ap rf ra) (at level 61, left associativity).

Definition prefix {A} (li : loc_item) (r : res A) : res A :=
  match r with
  | Ok a => Ok a
  | Err es => Err (map (fun e => mk_error (li :: err_loc e) (err_type e)) es)
  end.

(** ** Field lookup under [populate_by_name=True] (class [BaseSchema])

    A field declared with an alias is looked up under its alias first, then
    under its Python name; a field without alias only under its name. Keys
    matching no field are never looked at: pydantic's default
    [extra='ignore']. The key found is returned with its value: errors in
    that value are reported under the key the input used. *)
Definition get_field (name : string) (alias : option string) (o : obj)
  : option (string * json) :=
  match alias with
  | Some a =>
      match lookup a o with
      | Some v => Some (a, v)
      | None =>
          match lookup name o with Some v => Some (name, v) | None => None end
      end
  | None => match lookup name o with Some v => Some (name, v) | None => None end
  end.

(** A missing field is reported under its alias when it has one. *)
Definition loc_key (name : string) (alias : option string) : string :=
  match alias with Some a => a | None => name end.

Definition missing_at (k : string) : error := mk_error [LKey k] missing.

(** A required field: [x: T] or [Field(..., alias=...)]. *)
Definition req {T} (name : string) (alias : option string)
    (v : json -> res T) (o : obj) : res T :=
  match get_field name alias o with
  | None => Err [missing_at (loc_key name alias)]
  | Some (k, j) => prefix (LKey k) (v j)
  end.

(** A field with a default: [x: T = d], [Field(None, ...)] or
    [Field(default_factory=list)]. *)
Definition dflt {T} (name : string) (alias : option string) (d : T)
    (v : json -> res T) (o : obj) : res T :=
  match get_field name alias o with
  | None => Ok d
  | Some (k, j) => prefix (LKey k) (v j)
  end.

(** ** Value validators *)

Definition v_str (j : json) : res string :=
  match j with
  | JStr s => Ok s
  | _ => Err [mk_error [] string_type]
  end.

(** [T | None] *)
Definition v_opt {T} (v : json -> res T) (j : json) : res (option T) :=
  match j with
  | JNull => Ok None
  | _ => Some <$> v j
  end.

Fixpoint v_list_from {T} (v : json -> res T) (i : nat) (l : list json)
  : res (list T) :=
  match l with
  | [] => Ok []
  | j :: l' => cons <$> prefix (LIdx i) (v j) <*> v_list_from v (S i) l'
  end.

(** [list[T]] *)
Definition v_list {T} (v : json -> res T) (j : json) : res (list T) :=
  match j with
  | JList l => v_list_from v 0 l
  | _ => Err [mk_error [] list_type]
  end.

(** A nested model field: the value must be a mapping. *)
Definition v_model {T} (v : obj -> res T) (j : json) : res T :=
  match j with
  | JObj o => v o
  | _ => Err [mk_error [] model_type]
  end.

(** ** The models of [core/models.py] *)

Module Profile.
Record t : Type := mk {
    network : string;
    username : string;
    url : option string }.
End Profile.

Module Location.
Record t : Type := mk {
    address : option string;
    postal_code : option string;
    city : string;
    country_code : option string;
    region : option string }.
End Location.

Module Basics.
Record t : Type := mk {
    name : string;
    label : option string;
    email : string;
    phone : option string;
    url : option string;
    summary : option string;
    location : option Location.t;
    profiles : list Profile.t }.
End Basics.

Module WorkExperience.
Record t : Type := mk {
    name : string;
    position : string;
    url : option string;
    start_date : string;
    end_date : option string;
    summary : option string;
    highlights : list string;
    tech_stack : list string }.
End WorkExperience.

Module Project.
Record t : Type := mk {
    name : string;
    description : option string;
    highlights : list string;
    tech_stack : list string;
    url : option string;
    start_date : option string;
    end_date : option string }.
End Project.

Module Education.
Record t : Type := mk {
    institution : string;
    url : option string;
    area : string;
    study_type : string;
    start_date : string;
    end_date : option string;
    score : option string;
    courses : list string }.
End Education.

Module Skill.
Record t : Type := mk {
    name : string;
    level : option string;
    keywords : list string }.
End Skill.

Module MasterProfile.
Record t : Type := mk {
    basics : Basics.t;
    work : list WorkExperience.t;
    projects : list Project.t;
    education : list Education.t;
    skills : list Skill.t }.
End MasterProfile.

Section Validation.

(** [HttpUrl] validation, external to this code: it parses a string and
    returns its normalised form, or fails. *)
Variable url_parse : string -> option string.

Definition v_url (j : json) : res string :=
  match j with
  | JStr s =>
      match url_parse s with
      | Some u => Ok u
      | None => Err [mk_error [] url_parsing]
      end
  | _ => Err [mk_error [] url_type]
  end.

Definition v_ostr := v_opt v_str.
Definition v_ourl := v_opt v_url.

Definition validate_profile (o : obj) : res Profile.t :=
  Profile.mk
    <$> req "network" None v_str o
    <*> req "username" None v_str o
    <*> dflt "url" None None v_ourl o.

Definition validate_location (o : obj) : res Location.t :=
  Location.mk
    <$> dflt "address" None None v_ostr o
    <*> dflt "postal_code" (Some "postalCode") None v_ostr o
    <*> req "city" None v_str o
    <*> dflt "country_code" (Some "countryCode") None v_ostr o
    <*> dflt "region" None None v_ostr o.

Definition validate_basics (o : obj) : res Basics.t :=
  Basics.mk
    <$> req "name" None v_str o
    <*> dflt "label" None None v_ostr o
    <*> req "email" None v_str o
    <*> dflt "phone" None None v_ostr o
    <*> dflt "url" None None v_ourl o
    <*> dflt "summary" None None v_ostr o
    <*> dflt "location" None None (v_opt (v_model validate_location)) o
    <*> dflt "profiles" None [] (v_list (v_model validate_profile)) o.

Definition validate_work (o : obj) : res WorkExperience.t :=
  WorkExperience.mk
    <$> req "name" None v_str o
    <*> req "position" None v_str o
    <*> dflt "url" None None v_ourl o
    <*> req "start_date" (Some "startDate") v_str o
    <*> dflt "end_date" (Some "endDate") None v_ostr o
    <*> dflt "summary" None None v_ostr o
    <*> dflt "highlights" None [] (v_list v_str) o
    <*> dflt "tech_stack" (Some "techStack") [] (v_list v_str) o.

Definition validate_project (o : obj) : res Project.t :=
  Project.mk
    <$> req "name" None v_str o
    <*> dflt "description" None None v_ostr o
    <*> dflt "highlights" None [] (v_list v_str) o
    <*> dflt "tech_stack" (Some "techStack") [] (v_list v_str) o
    <*> dflt "url" None None v_ourl o
    <*> dflt "start_date" (Some "startDate") None v_ostr o
    <*> dflt "end_date" (Some "endDate") None v_ostr o.

Definition validate_education (o : obj) : res Education.t :=
  Education.mk
    <$> req "institution" None v_str o
    <*> dflt "url" None None v_ourl o
    <*> req "area" None v_str o
    <*> req "study_type" (Some "studyType") v_str o
    <*> req "start_date" (Some "startDate") v_str o
    <*> dflt "end_date" (Some "endDate") None v_ostr o
    <*> dflt "score" None None v_ostr o
    <*> dflt "courses" None [] (v_list v_str) o.

Definition validate_skill (o : obj) : res Skill.t :=
  Skill.mk
    <$> req "name" None v_str o
    <*> dflt "level" None None v_ostr o
    <*> dflt "keywords" None [] (v_list v_str) o.

Definition validate_master (o : obj) : res MasterProfile.t :=
  MasterProfile.mk
    <$> req "basics" None (v_model validate_basics) o
    <*> dflt "work" None [] (v_list (v_model validate_work)) o
    <*> dflt "projects" None [] (v_list (v_model validate_project)) o
    <*> dflt "education" None [] (v_list (v_model validate_education)) o
    <*> dflt "skills" None [] (v_list (v_model validate_skill)) o.

End Validation.

(** ** [model_dump(mode="json", exclude_none=..., by_alias=...)] *)

Section Dump.

Variables exclude_none by_alias : bool.

Definition dkey (name : string) (alias : option string) : string :=
  if by_alias then loc_key name alias else name.

(** An optional field: left out under [exclude_none], else [null]. *)
Definition opt_entry {T} (k : string) (f : T -> json) (v : option T) : obj :=
  match v with
  | None => if exclude_none then [] else [(k, JNull)]
  | Some x => [(k, f x)]
  end.

Definition strs (l : list string) : json := JList (map JStr l).

Definition dump_profile (p : Profile.t) : json :=
  JObj ([("network", JStr (Profile.network p));
         ("username", JStr (Profile.username p))]
        ++ opt_entry "url" JStr (Profile.url p)).

Definition dump_location (l : Location.t) : json :=
  JObj (opt_entry "address" JStr (Location.address l)
        ++ opt_entry (dkey "postal_code" (Some "postalCode")) JStr
             (Location.postal_code l)
        ++ [("city", JStr (Location.city l))]
        ++ opt_entry (dkey "country_code" (Some "countryCode")) JStr
             (Location.country_code l)
        ++ opt_entry "region" JStr (Location.region l)).

Definition dump_basics (b : Basics.t) : json :=
  JObj ([("name", JStr (Basics.name b))]
        ++ opt_entry "label" JStr (Basics.label b)
        ++ [("email", JStr (Basics.email b))]
        ++ opt_entry "phone" JStr (Basics.phone b)
        ++ opt_entry "url" JStr (Basics.url b)
        ++ opt_entry "summary" JStr (Basics.summary b)
        ++ opt_entry "location" dump_location (Basics.location b)
        ++ [("profiles", JList (map dump_profile (Basics.profiles b)))]).

Definition dump_work (w : WorkExperience.t) : json :=
  JObj ([("name", JStr (WorkExperience.name w));
         ("position", JStr (WorkExperience.position w))]
        ++ opt_entry "url" JStr (WorkExperience.url w)
        ++ [(dkey "start_date" (Some "startDate"),
             JStr (WorkExperience.start_date w))]
        ++ opt_entry (dkey "end_date" (Some "endDate")) JStr
             (WorkExperience.end_date w)
        ++ opt_entry "summary" JStr (WorkExperience.summary w)
        ++ [("highlights", strs (WorkExperience.highlights w));
            (dkey "tech_stack" (Some "techStack"),
             strs (WorkExperience.tech_stack w))]).

Definition dump_project (p : Project.t) : json :=
  JObj ([("name", JStr (Project.name p))]
        ++ opt_entry "description" JStr (Project.description p)
        ++ [("highlights", strs (Project.highlights p));
            (dkey "tech_stack" (Some "techStack"), strs (Project.tech_stack p))]
        ++ opt_entry "url" JStr (Project.url p)
        ++ opt_entry (dkey "start_date" (Some "startDate")) JStr
             (Project.start_date p)
        ++ opt_entry (dkey "end_date" (Some "endDate")) JStr
             (Project.end_date p)).

Definition dump_education (e : Education.t) : json :=
  JObj ([("institution", JStr (Education.institution e))]
        ++ opt_entry "url" JStr (Education.url e)
        ++ [("area", JStr (Education.area e));
            (dkey "study_type" (Some "studyType"), JStr (Education.study_type e));
            (dkey "start_date" (Some "startDate"), JStr (Education.start_date e))]
        ++ opt_entry (dkey "end_date" (Some "endDate")) JStr
             (Education.end_date e)
        ++ opt_entry "score" JStr (Education.score e)
        ++ [("courses", strs (Education.courses e))]).

Definition dump_skill (s : Skill.t) : json :=
  JObj ([("name", JStr (Skill.name s))]
        ++ opt_entry "level" JStr (Skill.level s)
        ++ [("keywords", strs (Skill.keywords s))]).

Definition dump_master (p : MasterProfile.t) : json :=
  JObj [("basics", dump_basics (MasterProfile.basics p));
        ("work", JList (map dump_work (MasterProfile.work p)));
        ("projects", JList (map dump_project (MasterProfile.projects p)));
        ("education", JList (map dump_education (MasterProfile.education p)));
        ("skills", JList (map dump_skill (MasterProfile.skills p)))].

End Dump.

(** ** Exceptions raised along the command paths *)

Inductive exn : Type :=
| ValidationError (es : list error)
| TypeError (msg : string)
| ValueError (msg : string)
| OSError (msg : string)
| LLMError (msg : string)
(** [typer.Exit(code)], an exception too ([click.exceptions.Exit]). *)
| Exit (code : nat).

(** [MasterProfile( **data)]: [data] must be a mapping, else Python raises
    [TypeError] before pydantic runs. *)
Definition construct_master (url_parse : string -> option string) (data : json)
  : exn + MasterProfile.t :=
  match data with
  | JObj o =>
      match validate_master url_parse o with
      | Ok p => inr p
      | Err es => inl (ValidationError es)
      end
  | _ => inl (TypeError "argument after ** must be a mapping")
  end.

(** ** [utils/file_io.py]: [extract_text_from_file] *)

Definition ascii_lower (c : ascii) : ascii :=
  let n := nat_of_ascii c in
  if Nat.leb 65 n && Nat.leb n 90 then ascii_of_nat (n + 32) else c.

(** [str.lower] on the ASCII range. *)
Fixpoint lower (s : string) : string :=
  match s with
  | EmptyString => EmptyString
  | String c s' => String (ascii_lower c) (lower s')
  end.

(** [pathlib] drops empty and ["."] components when it parses a path. *)
Definition kept_part (c : string) : bool :=
  negb (String.eqb c "") && negb (String.eqb c ".").

(** [PurePath.name]: the last component kept by [pathlib] (["a/b"],
    ["a/b/"], ["a/b/."] and ["a//b"] all name ["b"]), or [""] when there is
    none, as for ["."] and ["/"]. [cur] is the component being read, [last]
    the last one kept before it. *)
Fixpoint name_acc (s cur last : string) : string :=
  match s with
  | EmptyString => if kept_part cur then cur else last
  | String c s' =>
      if Ascii.eqb c "/"%char
      then name_acc s' EmptyString (if kept_part cur then cur else last)
      else name_acc s' (String.append cur (String c EmptyString)) last
  end.

Definition basename (s : string) : string := name_acc s EmptyString EmptyString.

(** [name.rfind(".")], as [None] for [-1]. *)
Fixpoint rfind_dot (s : string) (i : nat) (found : option nat) : option nat :=
  match s with
  | EmptyString => found
  | String c s' =>
      rfind_dot s' (S i) (if Ascii.eqb c "."%char then Some i else found)
  end.

(** [PurePath.suffix]: the name from its last dot, when that dot is neither
    the first nor the last character of the name; otherwise [""]. *)
Definition suffix (path : string) : string :=
  let name := basename path in
  match rfind_dot name 0 None with
  | Some i =>
      if Nat.ltb 0 i && Nat.ltb i (String.length name - 1)
      then substring i (String.length name - i) name
      else ""
  | None => ""
  end.

Section Extract.

(** The readers: [path.read_text], [_extract_text_from_pdf] and
    [_extract_text_from_docx], which read the file and may raise. *)
Variables read_text pdf_text docx_text : string -> exn + string.

Definition extract_text_from_file (path : string) : exn + string :=
  let sfx := lower (suffix path) in
  if String.eqb sfx ".pdf" then pdf_text path
  else if String.eqb sfx ".docx" then docx_text path
  else if String.eqb sfx ".txt" || String.eqb sfx ".md" then read_text path
  else inl (ValueError ("Unsupported file format: " ++ sfx)).

End Extract.

(** ** [ResumeAgent.merge_profile] *)

(** The interpolated parts of the merge prompt; the rest of the f-string
    (merge rules, [MasterProfile.model_json_schema()]) is constant. *)
Inductive prompt : Type :=
| MergePrompt (current_data : json) (new_text : string).

Inductive content : Type :=
| CPlain (s : string)
| CText (p : prompt)
| CParts (p : prompt) (image_urls : list string).

Record message : Type := mk_msg { role : string; msg_content : content }.

Definition system_msg : message :=
  mk_msg "system" (CPlain "You are a helpful assistant that merges resume data.").

Definition merge_messages (current_profile : MasterProfile.t) (new_text : string)
    (images : option (list string)) : list message :=
  let current_data := dump_master false false current_profile in
  let prompt_text := MergePrompt current_data new_text in
  match images with
  | Some ((_ :: _) as imgs) => [system_msg; mk_msg "user" (CParts prompt_text imgs)]
  | _ => [system_msg; mk_msg "user" (CText prompt_text)]
  end.

Section Merge.

Variable url_parse : string -> option string.

(** [self._get_completion(messages, json_mode=True)]: the LiteLLM call
    followed by [json.loads]; it returns any JSON value or raises. *)
Variable completion : list message -> exn + json.

Definition merge_profile (current_profile : MasterProfile.t) (new_text : string)
    (images : option (list string)) : exn + MasterProfile.t :=
  match completion (merge_messages current_profile new_text images) with
  | inl e => inl e
  | inr merged_data => construct_master url_parse merged_data
  end.

End Merge.

(** ** The [update] command of [main.py] *)

(** The file system seen by the command: file contents by path. *)
Definition fs := string -> option string.

Definition fs_write (f : fs) (path contents : string) : fs :=
  fun p => if String.eqb p path then Some contents else f p.

(** How the file system takes [open(path, "w")] followed by writing the
    text: completely; not at all, [open] raising [OSError] (the file is left
    as it was); or, once [open] has truncated the file, only the first [n]
    characters before [OSError] (a full disk). *)
Inductive write_fault : Type :=
| WriteOk
| OpenFails
| DiskFullAfter (n : nat).

(** The files afterwards, and whether the write returned normally. *)
Definition write_text (w : write_fault) (f : fs) (path contents : string)
  : fs * bool :=
  match w with
  | WriteOk => (fs_write f path contents, true)
  | OpenFails => (f, false)
  | DiskFullAfter n =>
      if Nat.ltb n (String.length contents)
      then (fs_write f path (substring 0 n contents), false)
      else (fs_write f path contents, true)
  end.

Record outcome : Type := mk_outcome {
  files : fs;
  llm_calls : list (list message);
  exit_code : nat }.

Section Update.

Variable url_parse : string -> option string.
Variable completion : list message -> exn + json.
(** [yaml.safe_load] on a file's text, and [yaml.dump] of a JSON value. *)
Variable yaml_safe_load : string -> exn + json.
Variable yaml_dump : json -> string.
Variables read_text pdf_text docx_text : string -> exn + string.
Variable pdf_to_base64_images : string -> exn + list string.
(** The user's answer to [Confirm.ask]. *)
Variable confirm : bool.
(** Whether rich renders a console message: [console.print],
    [console.status] and [Confirm.ask] parse their text as markup and raise
    [MarkupError] on a closing tag that matches no open tag, as in a path
    such as [d[/x].yaml] interpolated into the message. *)
Variable markup_ok : string -> bool.
(** How the file system takes a write to each path. *)
Variable disk : string -> write_fault.

(** The files after [write_yaml(data, path)] has completed. *)
Definition write_yaml (f : fs) (data : json) (path : string) : fs :=
  fs_write f path (yaml_dump data).

(** [write_yaml(data, path)] as it runs: [open(path, "w")] truncates the
    file, then [yaml.dump] writes into it, and either may raise. *)
Definition write_yaml_io (f : fs) (data : json) (path : string) : fs * bool :=
  write_text (disk path) f path (yaml_dump data).

(** [with open(profile_file) as f: data = yaml.safe_load(f)] followed by
    [MasterProfile( **data)], as in [update] and [validate]. *)
Definition load_profile (f : fs) (profile_file : string) : exn + MasterProfile.t :=
  match f profile_file with
  | None => inl (OSError "No such file")
  | Some text =>
      match yaml_safe_load text with
      | inl e => inl e
      | inr current_data => construct_master url_parse current_data
      end
  end.

(** Every exception escaping [update] ends it with exit code 1: through
    [typer.Exit(code=1)] when caught, as an uncaught exception for the
    messages printed outside a [try]. *)
Definition update (f : fs) (new_resume_file profile_file : string)
    (vision : bool) : outcome :=
  let abort := mk_outcome f [] 1 in
  match f new_resume_file, f profile_file with
  | None, _ | _, None => abort
  | Some _, Some _ =>
      if negb (markup_ok ("[info]Loading current profile from " ++ profile_file
                          ++ "...[/info]")%string) then abort else
      match load_profile f profile_file with
      | inl _ => abort
      | inr current_profile =>
          if negb (markup_ok ("[info]Extracting text from " ++ new_resume_file
                              ++ "...[/info]")%string) then abort else
          match extract_text_from_file read_text pdf_text docx_text
                  new_resume_file with
          | inl _ => abort
          | inr raw_text =>
              let images :=
                if String.eqb (lower (suffix new_resume_file)) ".pdf" && vision
                then match pdf_to_base64_images new_resume_file with
                     | inr imgs => Some imgs
                     | inl _ => None
                     end
                else None in
              let calls := [merge_messages current_profile raw_text images] in
              match merge_profile url_parse completion current_profile raw_text
                      images with
              | inl _ => mk_outcome f calls 1
              | inr merged_profile =>
                  if confirm then
                    let w := write_yaml_io f (dump_master true true merged_profile)
                               profile_file in
                    mk_outcome (fst w) calls
                      (if snd w && markup_ok ("[success]Profile updated successfully: "
                                              ++ profile_file ++ "[/success]")%string
                       then 0 else 1)
                  else mk_outcome f calls 0
              end
          end
      end
  end.

End Update.

(** ** Constructing any entity of [models.py] from a mapping

    [X( **o)] for each model class [X], with the fields each class declares:
    its Python name and its alias, if any. *)

Inductive entity : Type :=
| EProfile | ELocation | EBasics | EWorkExperience
| EProject | EEducation | ESkill | EMasterProfile.

Inductive value : Type :=
| VProfile (p : Profile.t)
| VLocation (l : Location.t)
| VBasics (b : Basics.t)
| VWorkExperience (w : WorkExperience.t)
| VProject (p : Project.t)
| VEducation (e : Education.t)
| VSkill (s : Skill.t)
| VMasterProfile (m : MasterProfile.t).

Definition construct (url_parse : string -> option string) (e : entity) (o : obj)
  : res value :=
  match e with
  | EProfile => VProfile <$> validate_profile url_parse o
  | ELocation => VLocation <$> validate_location o
  | EBasics => VBasics <$> validate_basics url_parse o
  | EWorkExperience => VWorkExperience <$> validate_work url_parse o
  | EProject => VProject <$> validate_project url_parse o
  | EEducation => VEducation <$> validate_education url_parse o
  | ESkill => VSkill <$> validate_skill o
  | EMasterProfile => VMasterProfile <$> validate_master url_parse o
  end.

Definition fields_of (e : entity) : list (string * option string) :=
  match e with
  | EProfile => [("network", None); ("username", None); ("url", None)]
  | ELocation =>
      [("address", None); ("postal_code", Some "postalCode"); ("city", None);
       ("country_code", Some "countryCode"); ("region", None)]
  | EBasics =>
      [("name", None); ("label", None); ("email", None); ("phone", None);
       ("url", None); ("summary", None); ("location", None); ("profiles", None)]
  | EWorkExperience =>
      [("name", None); ("position", None); ("url", None);
       ("start_date", Some "startDate"); ("end_date", Some "endDate");
       ("summary", None); ("highlights", None); ("tech_stack", Some "techStack")]
  | EProject =>
      [("name", None); ("description", None); ("highlights", None);
       ("tech_stack", Some "techStack"); ("url", None);
       ("start_date", Some "startDate"); ("end_date", Some "endDate")]
  | EEducation =>
      [("institution", None); ("url", None); ("area", None);
       ("study_type", Some "studyType"); ("start_date", Some "startDate");
       ("end_date", Some "endDate"); ("score", None); ("courses", None)]
  | ESkill => [("name", None); ("level", None); ("keywords", None)]
  | EMasterProfile =>
      [("basics", None); ("work", None); ("projects", None);
       ("education", None); ("skills", None)]
  end.

(** ** The [add], [bootstrap] and [validate] commands of [main.py] *)

(** The requests these commands send through [_get_completion], given by
    the values interpolated into their prompts ([bootstrap_profile],
    [extract_entity], [analyze_job_description], [tailor_profile]); the
    rest of each prompt is constant. *)
Inductive request : Type :=
| RBootstrap (raw_text : string) (image_urls : list string)
| REntity (entity_type : string) (text : string)
| RAnalyze (jd_text : string)
| RTailor (jd_analysis : json) (profile_dict : json).

Record run : Type := mk_run { r_files : fs; r_calls : list request; r_exit : nat }.

Inductive entity_kind : Type := KWork | KProject | KEducation | KSkill.

(** [type_map] of [ResumeAgent.extract_entity]. *)
Definition type_map (entity_type : string) : option entity_kind :=
  if String.eqb entity_type "work" then Some KWork
  else if String.eqb entity_type "project" then Some KProject
  else if String.eqb entity_type "education" then Some KEducation
  else if String.eqb entity_type "skill" then Some KSkill
  else None.

(** [if images:] in [bootstrap_profile]: no images, or an empty list, sends
    the text-only message; otherwise the images are attached. *)
Definition image_parts (images : option (list string)) : list string :=
  match images with Some imgs => imgs | None => [] end.

(** [Model( **data)] for one of the entity classes. *)
Definition construct_kwargs {T} (v : obj -> res T) (data : json) : exn + T :=
  match data with
  | JObj o =>
      match v o with
      | Ok x => inr x
      | Err es => inl (ValidationError es)
      end
  | _ => inl (TypeError "argument after ** must be a mapping")
  end.

Section Commands.

Variable url_parse : string -> option string.
(** [self._get_completion(...)] for each request. *)
Variable llm : request -> exn + json.
Variable yaml_safe_load : string -> exn + json.
Variable yaml_dump : json -> string.
Variables read_text pdf_text docx_text : string -> exn + string.
Variable pdf_to_base64_images : string -> exn + list string.
(** The user's answer to the command's [Confirm.ask]. *)
Variable confirm : bool.
(** Whether rich renders a console message (see [update]). *)
Variable markup_ok : string -> bool.
(** How the file system takes a write to each path. *)
Variable disk : string -> write_fault.

Definition bootstrap_profile (raw_text : string) (images : option (list string))
  : exn + MasterProfile.t :=
  match llm (RBootstrap raw_text (image_parts images)) with
  | inl e => inl e
  | inr profile_data => construct_master url_parse profile_data
  end.

Definition extract_entity (text entity_type : string) : exn + json :=
  match type_map entity_type with
  | None => inl (ValueError ("Unsupported entity type: " ++ entity_type))
  | Some _ => llm (REntity entity_type text)
  end.

(** The model calls [extract_entity] makes. *)
Definition entity_calls (text entity_type : string) : list request :=
  match type_map entity_type with
  | None => []
  | Some _ => [REntity entity_type text]
  end.

(** The [if/elif] chain of [add] appending the new entry. *)
Definition append_entity (profile : MasterProfile.t) (entity_type : string)
    (entity_data : json) : exn + MasterProfile.t :=
  let b := MasterProfile.basics profile in
  let w := MasterProfile.work profile in
  let p := MasterProfile.projects profile in
  let e := MasterProfile.education profile in
  let s := MasterProfile.skills profile in
  if String.eqb entity_type "work" then
    match construct_kwargs (validate_work url_parse) entity_data with
    | inl x => inl x
    | inr x => inr (MasterProfile.mk b (w ++ [x]) p e s)
    end
  else if String.eqb entity_type "project" then
    match construct_kwargs (validate_project url_parse) entity_data with
    | inl x => inl x
    | inr x => inr (MasterProfile.mk b w (p ++ [x]) e s)
    end
  else if String.eqb entity_type "education" then
    match construct_kwargs (validate_education url_parse) entity_data with
    | inl x => inl x
    | inr x => inr (MasterProfile.mk b w p (e ++ [x]) s)
    end
  else if String.eqb entity_type "skill" then
    match construct_kwargs validate_skill entity_data with
    | inl x => inl x
    | inr x => inr (MasterProfile.mk b w p e (s ++ [x]))
    end
  else
    (* [console.print(...)] then [raise typer.Exit(code=1)] *)
    inl (Exit 1).

(** Every exception escaping [add] ends it with exit code 1; [return]
    after a declined confirmation ends it with code 0. *)
Definition add (f : fs) (entity_type description profile_file : string) : run :=
  match f profile_file with
  | None => mk_run f [] 1
  | Some _ =>
      match load_profile url_parse yaml_safe_load f profile_file with
      | inl _ => mk_run f [] 1
      | inr profile =>
          if negb (markup_ok ("[bold green]Parsing " ++ entity_type
                              ++ " details...[/bold green]")%string)
          then mk_run f [] 1 else
          let calls := entity_calls description entity_type in
          match extract_entity description entity_type with
          | inl _ => mk_run f calls 1
          | inr entity_data =>
              if negb (markup_ok ("[info]Extracted " ++ entity_type
                                  ++ " data:[/info]")%string)
              then mk_run f calls 1 else
              if negb confirm then mk_run f calls 0
              else
                match append_entity profile entity_type entity_data with
                | inl _ => mk_run f calls 1
                | inr profile' =>
                    let w := write_yaml_io yaml_dump disk f
                               (dump_master true true profile') profile_file in
                    mk_run (fst w) calls
                      (if snd w && markup_ok ("[success]Successfully added "
                                              ++ entity_type ++ " to " ++ profile_file
                                              ++ "[/success]")%string
                       then 0 else 1)
                end
          end
      end
  end.

(** The image step shared by [bootstrap] and [update]: only a [.pdf] with
    vision on is converted, and a failed conversion falls back to text. *)
Definition vision_images (input_file : string) (vision : bool)
  : option (list string) :=
  if String.eqb (lower (suffix input_file)) ".pdf" && vision
  then match pdf_to_base64_images input_file with
       | inr imgs => Some imgs
       | inl _ => None
       end
  else None.

Definition bootstrap (f : fs) (input_file output_file : string) (vision : bool)
  : run :=
  match f input_file with
  | None => mk_run f [] 1
  | Some _ =>
      (* [typer.Abort()] when the user refuses to overwrite: exit code 1 *)
      if match f output_file with
         | Some _ =>
             negb (markup_ok ("File " ++ output_file
                              ++ " already exists. Overwrite?")%string)
             || negb confirm
         | None => false
         end
      then mk_run f [] 1
      else if negb (markup_ok ("[info]Extracting text from " ++ input_file
                               ++ "...[/info]")%string)
      then mk_run f [] 1
      else
        match extract_text_from_file read_text pdf_text docx_text input_file with
        | inl _ => mk_run f [] 1
        | inr raw_text =>
            let images := vision_images input_file vision in
            let calls := [RBootstrap raw_text (image_parts images)] in
            match bootstrap_profile raw_text images with
            | inl _ => mk_run f calls 1
            | inr profile =>
                if negb (markup_ok ("[info]Saving generated profile to " ++ output_file
                                    ++ "...[/info]")%string)
                then mk_run f calls 1 else
                let w := write_yaml_io yaml_dump disk f (dump_master true true profile)
                           output_file in
                mk_run (fst w) calls
                  (if snd w && markup_ok ("[success]Master Profile bootstrapped successfully: "
                                          ++ output_file ++ "[/success]")%string
                   then 0 else 1)
            end
        end
  end.

(** The exit code of the [validate] command, for a path its messages can
    print. *)
Definition validate (f : fs) (profile_file : string) : nat :=
  match f profile_file with
  | None => 1
  | Some _ =>
      match load_profile url_parse yaml_safe_load f profile_file with
      | inr _ => 0
      | inl _ => 1
      end
  end.

End Commands.

(** ** The [tailor] and [init] commands of [main.py] *)

(** The components [pathlib] keeps, in order. *)
Fixpoint parts_acc (s cur : string) : list string :=
  match s with
  | EmptyString => if kept_part cur then [cur] else []
  | String c s' =>
      if Ascii.eqb c "/"%char
      then if kept_part cur then cur :: parts_acc s' EmptyString
           else parts_acc s' EmptyString
      else parts_acc s' (String.append cur (String c EmptyString))
  end.

(** The root of a POSIX path: exactly two leading slashes are kept, one or
    three and more give ["/"]. *)
Definition path_root (s : string) : string :=
  match s with
  | String "/" (String "/" EmptyString) => "//"
  | String "/" (String "/" (String c _)) =>
      if Ascii.eqb c "/"%char then "/" else "//"
  | String "/" _ => "/"
  | _ => ""
  end.

(** [str(PurePosixPath(s))]. *)
Definition normpath (s : string) : string :=
  let ps := parts_acc s EmptyString in
  let r := path_root s in
  match r, ps with
  | EmptyString, [] => "."
  | _, _ => String.append r (String.concat "/" ps)
  end.

(** [str(PurePath(path).with_suffix(sfx))] for a valid [sfx]: the suffix
    of the name is replaced, or added when there is none; a path with an
    empty name raises [ValueError] ([None]). *)
Definition with_suffix (path sfx : string) : option string :=
  let p := normpath path in
  if String.eqb (basename p) "" then None
  else Some (String.append
               (substring 0 (String.length p - String.length (suffix p)) p)
               sfx).

(** The JSON values that are Python [str]s. *)
Fixpoint all_strs (l : list json) : option (list string) :=
  match l with
  | [] => Some []
  | JStr s :: l' => option_map (cons s) (all_strs l')
  | _ :: _ => None
  end.

(** [', '.join(analysis.get('keywords', [])[:5])], or [None] where Python
    raises: [AttributeError] when the analysis is not a dict, [TypeError]
    when the keywords are not sliceable or a sliced item is not a string.
    A string is sliced and joined by characters (ASCII). *)
Definition keywords_preview (analysis : json) : option string :=
  match analysis with
  | JObj o =>
      match match lookup "keywords" o with Some v => v | None => JList [] end with
      | JList l => option_map (String.concat ", ") (all_strs (firstn 5 l))
      | JStr s =>
          Some (String.concat ", "
                  (map (fun c => String c EmptyString)
                       (list_ascii_of_string (substring 0 5 s))))
      | _ => None
      end
  | _ => None
  end.

Section Tailor.

Variable url_parse : string -> option string.
Variable llm : request -> exn + json.
Variable yaml_safe_load : string -> exn + json.
Variable yaml_dump : json -> string.
(** [job_description_file.read_text()] *)
Variable read_text : string -> exn + string.
(** [_render_pdf(profile, theme, output)]: the files afterwards, and whether
    it returned (rather than raising [typer.Exit(code=1)]). *)
Variable render_pdf : fs -> MasterProfile.t -> string -> string -> fs * bool.
(** Whether rich renders a console message (see [update]). *)
Variable markup_ok : string -> bool.
(** How the file system takes a write to each path. *)
Variable disk : string -> write_fault.

Definition analyze_job_description (jd_text : string) : exn + json :=
  llm (RAnalyze jd_text).

Definition tailor_profile (profile : MasterProfile.t) (jd_analysis : json)
  : exn + MasterProfile.t :=
  match llm (RTailor jd_analysis (dump_master false false profile)) with
  | inl e => inl e
  | inr tailored_data => construct_master url_parse tailored_data
  end.

(** Every exception escaping [tailor] ends the program with exit code 1:
    [typer.Exit(code=1)] for the handled ones, Python's own exit status for
    an uncaught one ([read_text], [with_suffix], [write_yaml] and the
    messages printed outside a [try]). *)
Definition tailor (f : fs) (job_description_file profile_file theme output : string)
  : run :=
  match f profile_file, f job_description_file with
  | None, _ | _, None => mk_run f [] 1
  | Some _, Some _ =>
      if negb (markup_ok ("[info]Loading profile from " ++ profile_file
                          ++ "...[/info]")%string) then mk_run f [] 1 else
      match load_profile url_parse yaml_safe_load f profile_file with
      | inl _ => mk_run f [] 1
      | inr profile =>
          match read_text job_description_file with
          | inl _ => mk_run f [] 1
          | inr jd_text =>
              let c1 := [RAnalyze jd_text] in
              match analyze_job_description jd_text with
              | inl _ => mk_run f c1 1
              | inr analysis =>
                  match keywords_preview analysis with
                  | None => mk_run f c1 1
                  | Some kw =>
                      if negb (markup_ok ("   [dim]Keywords: " ++ kw
                                          ++ "...[/dim]")%string)
                      then mk_run f c1 1 else
                      let c2 := c1 ++ [RTailor analysis (dump_master false false profile)] in
                      match tailor_profile profile analysis with
                      | inl _ => mk_run f c2 1
                      | inr tailored_profile =>
                          match with_suffix output ".yaml" with
                          | None => mk_run f c2 1
                          | Some yaml_output =>
                              if negb (markup_ok ("[info]Saving tailored profile data to "
                                                  ++ yaml_output ++ "...[/info]")%string)
                              then mk_run f c2 1 else
                              let w := write_yaml_io yaml_dump disk f
                                         (dump_master true true tailored_profile)
                                         yaml_output in
                              if negb (snd w) then mk_run (fst w) c2 1 else
                              let (f2, ok) := render_pdf (fst w) tailored_profile theme output in
                              mk_run f2 c2
                                (if ok && markup_ok ("[success]Tailored resume built successfully: "
                                                     ++ output ++ "[/success]")%string
                                 then 0 else 1)
                          end
                      end
                  end
              end
          end
      end
  end.

End Tailor.




Section Init.

(** The text of [DEFAULT_PROFILE_YAML]. *)
Variable DEFAULT_PROFILE_YAML : string.
(** [str(path.resolve())], absolute and free of symbolic links. *)
Variable resolve : string -> string.
(** Whether [path.mkdir(parents=True, exist_ok=True)] returns, for a path
    holding no regular file. *)
Variable mkdir_ok : string -> bool.
(** Whether rich renders a console message (see [update]). *)
Variable markup_ok : string -> bool.
(** How the file system takes a write to each path. *)
Variable disk : string -> write_fault.



End Init.

(** * Properties *)

(** ** The applicative layer *)

Lemma fmap_ok {A B} (f : A -> B) r b :
  f <$> r = Ok b -> exists a, r = Ok a /\ b = f a.
Proof. destruct r; simpl; intros H; inversion H; eauto. Qed.

Lemma ap_ok {A B} (rf : res (A -> B)) ra b :
  rf <*> ra = Ok b -> exists f a, rf = Ok f /\ ra = Ok a /\ b = f a.
Proof. destruct rf, ra; simpl; intros H; inversion H; eauto. Qed.

Lemma prefix_ok {A} li (r : res A) a : prefix li r = Ok a -> r = Ok a.
Proof. destruct r; simpl; intros H; inversion H; auto. Qed.

Lemma prefix_Ok {A} li (a : A) : prefix li (Ok a) = Ok a.
Proof. reflexivity. Qed.

(** Take an [Ok] result of a record validator apart, field by field. *)
Ltac inv_ok :=
  repeat match goal with
  | H : _ <*> _ = Ok _ |- _ =>
      let f := fresh "f" in let a := fresh "a" in
      let Hf := fresh "Hf" in let Ha := fresh "Ha" in
      apply ap_ok in H; destruct H as (f & a & Hf & Ha & H); subst
  | H : _ <$> _ = Ok _ |- _ =>
      let a := fresh "a" in let Ha := fresh "Ha" in
      apply fmap_ok in H; destruct H as (a & Ha & H); subst
  end.

Lemma v_list_from_map {A} (v : json -> res A) (d : A -> json) (l : list A) :
  (forall x, In x l -> v (d x) = Ok x) ->
  forall i, v_list_from v i (map d l) = Ok l.
Proof.
  induction l as [|x l IH]; intros Hv i; simpl; auto.
  rewrite Hv by (left; reflexivity).
  rewrite IH by (intros y Hy; apply Hv; right; exact Hy).
  reflexivity.
Qed.

Lemma v_list_from_strs (l : list string) i : v_list_from v_str i (map JStr l) = Ok l.
Proof. apply v_list_from_map. reflexivity. Qed.

Lemma v_list_strs (l : list string) : v_list v_str (strs l) = Ok l.
Proof. apply v_list_from_strs. Qed.

Lemma v_list_from_forall {A} (v : json -> res A) (P : A -> Prop) :
  (forall j a, v j = Ok a -> P a) ->
  forall l i xs, v_list_from v i l = Ok xs -> Forall P xs.
Proof.
  intros Hv l. induction l as [|j l IH]; intros i xs H; simpl in H.
  - inversion H; constructor.
  - inv_ok. apply prefix_ok in Ha0. constructor; eauto.
Qed.

Lemma v_list_forall {A} (v : json -> res A) (P : A -> Prop) j xs :
  (forall j a, v j = Ok a -> P a) -> v_list v j = Ok xs -> Forall P xs.
Proof.
  intros Hv H. destruct j; simpl in H; try discriminate.
  eapply v_list_from_forall; eauto.
Qed.

Lemma dflt_ok {T} n al (d : T) v o x :
  dflt n al d v o = Ok x -> x = d \/ exists j, v j = Ok x.
Proof.
  unfold dflt. destruct (get_field n al o) as [[k j]|]; intros H.
  - right. exists j. eapply prefix_ok; eauto.
  - left. inversion H; auto.
Qed.

Lemma req_ok {T} n al (v : json -> res T) o x :
  req n al v o = Ok x -> exists j, v j = Ok x.
Proof.
  unfold req. destruct (get_field n al o) as [[k j]|]; intros H; [|discriminate].
  exists j. eapply prefix_ok; eauto.
Qed.

(** ** Dumping a validated profile and validating it again *)

Section RoundTrip.

Variable url_parse : string -> option string.

(** A stored URL is in normal form: parsing it again gives it back. *)
Definition url_ok (o : option string) : Prop :=
  match o with None => True | Some u => url_parse u = Some u end.

Definition wf_profile (p : Profile.t) : Prop := url_ok (Profile.url p).
Definition wf_basics (b : Basics.t) : Prop :=
  url_ok (Basics.url b) /\ Forall wf_profile (Basics.profiles b).
Definition wf_work (w : WorkExperience.t) : Prop := url_ok (WorkExperience.url w).
Definition wf_project (p : Project.t) : Prop := url_ok (Project.url p).
Definition wf_education (e : Education.t) : Prop := url_ok (Education.url e).
Definition wf_master (p : MasterProfile.t) : Prop :=
  wf_basics (MasterProfile.basics p)
  /\ Forall wf_work (MasterProfile.work p)
  /\ Forall wf_project (MasterProfile.projects p)
  /\ Forall wf_education (MasterProfile.education p).

Ltac rt_solve :=
  repeat match goal with
  | o : option _ |- _ => destruct o
  | b : bool |- _ => destruct b
  end;
  cbv [validate_profile validate_location validate_basics validate_work
       validate_project validate_education validate_skill
       dump_profile dump_location dump_basics dump_work dump_project
       dump_education dump_skill opt_entry dkey strs
       req dflt v_model v_ostr v_ourl] in *;
  simpl in *;
  repeat match goal with
  | H : url_parse ?u = Some ?u |- context [url_parse ?u] => rewrite H
  end;
  rewrite ?v_list_from_strs; reflexivity.

Lemma rt_profile ex p :
  wf_profile p -> v_model (validate_profile url_parse) (dump_profile ex p) = Ok p.
Proof. destruct p; unfold wf_profile; simpl; intros H. rt_solve. Qed.

Lemma rt_location ex ba l :
  v_model validate_location (dump_location ex ba l) = Ok l.
Proof. destruct l. rt_solve. Qed.

Lemma v_list_from_models {A} (v : obj -> res A) (d : A -> json) (P : A -> Prop) l i :
  (forall x, P x -> v_model v (d x) = Ok x) -> Forall P l ->
  v_list_from (v_model v) i (map d l) = Ok l.
Proof.
  intros Hd Hl. apply v_list_from_map.
  intros x Hx. apply Hd. rewrite Forall_forall in Hl. auto.
Qed.

Lemma rt_basics ex ba b :
  wf_basics b -> v_model (validate_basics url_parse) (dump_basics ex ba b) = Ok b.
Proof.
  destruct b as [n lab em ph u sm loc prof]; unfold wf_basics; simpl.
  intros [Hu Hp].
  destruct loc as [[]|];
  cbv [validate_basics dump_basics dump_location opt_entry dkey
       req dflt v_ostr v_ourl] in *;
  repeat match goal with o : option _ |- _ => destruct o end;
  destruct ex, ba; simpl in *;
  repeat match goal with
  | H : url_parse ?x = Some ?x |- context [url_parse ?x] => rewrite H
  end; simpl;
  rewrite (v_list_from_models _ _ wf_profile) by
      (auto; intros; apply rt_profile; auto);
  reflexivity.
Qed.

Lemma rt_work ex ba w :
  wf_work w -> v_model (validate_work url_parse) (dump_work ex ba w) = Ok w.
Proof. destruct w; unfold wf_work; simpl; intros H. rt_solve. Qed.

Lemma rt_project ex ba p :
  wf_project p -> v_model (validate_project url_parse) (dump_project ex ba p) = Ok p.
Proof. destruct p; unfold wf_project; simpl; intros H. rt_solve. Qed.

Lemma rt_education ex ba e :
  wf_education e ->
  v_model (validate_education url_parse) (dump_education ex ba e) = Ok e.
Proof. destruct e; unfold wf_education; simpl; intros H. rt_solve. Qed.

Lemma rt_skill ex s : v_model validate_skill (dump_skill ex s) = Ok s.
Proof. destruct s. rt_solve. Qed.

Lemma rt_master ex ba p :
  wf_master p -> validate_master url_parse
                   (match dump_master ex ba p with JObj o => o | _ => [] end) = Ok p.
Proof.
  destruct p as [b w pr ed sk]; unfold wf_master; simpl.
  intros (Hb & Hw & Hp & He).
  remember (dump_basics ex ba b) as jb eqn:Ejb.
  remember (map (dump_work ex ba) w) as jw eqn:Ejw.
  remember (map (dump_project ex ba) pr) as jp eqn:Ejp.
  remember (map (dump_education ex ba) ed) as je eqn:Eje.
  remember (map (dump_skill ex) sk) as js eqn:Ejs.
  unfold validate_master, req, dflt. simpl.
  subst jb jw jp je js.
  rewrite (rt_basics ex ba b Hb).
  rewrite (v_list_from_models _ _ wf_work) by (auto; intros; apply rt_work; auto).
  rewrite (v_list_from_models _ _ wf_project) by (auto; intros; apply rt_project; auto).
  rewrite (v_list_from_models _ _ wf_education)
    by (auto; intros; apply rt_education; auto).
  rewrite (v_list_from_models _ _ (fun _ => True)) by
      (first [intros; apply rt_skill | apply Forall_forall; auto]).
  reflexivity.
Qed.

(** Validation leaves every URL in normal form, [HttpUrl] normalisation
    being idempotent. *)
Hypothesis url_parse_idem :
  forall s u, url_parse s = Some u -> url_parse u = Some u.

Lemma dflt_ourl_ok n al o x :
  dflt n al None (v_ourl url_parse) o = Ok x -> url_ok x.
Proof.
  intros H. apply dflt_ok in H. destruct H as [-> | [j Hj]]; simpl; auto.
  destruct j; simpl in Hj; try (inversion Hj; simpl; auto; fail).
  unfold v_url in Hj. destruct (url_parse s) eqn:E; inversion Hj; subst.
  simpl. eauto.
Qed.

Ltac wf_url :=
  match goal with
  | H : dflt _ _ None (v_ourl url_parse) _ = Ok ?x |- url_ok ?x =>
      exact (dflt_ourl_ok _ _ _ _ H)
  end.

Lemma valid_wf_profile o p : validate_profile url_parse o = Ok p -> wf_profile p.
Proof. unfold validate_profile. intros H. inv_ok. unfold wf_profile. simpl. wf_url. Qed.

Lemma valid_wf_basics o b : validate_basics url_parse o = Ok b -> wf_basics b.
Proof.
  unfold validate_basics. intros H. inv_ok. unfold wf_basics. simpl. split.
  - wf_url.
  - match goal with
    | H : dflt "profiles" _ _ _ _ = Ok ?x |- Forall _ ?x =>
        apply dflt_ok in H; destruct H as [-> | [j Hj]]; [constructor|]
    end.
    eapply v_list_forall; [|exact Hj].
    intros [] p Hp; simpl in Hp; try discriminate. eapply valid_wf_profile; eauto.
Qed.

Lemma valid_wf_work o w : validate_work url_parse o = Ok w -> wf_work w.
Proof. unfold validate_work. intros H. inv_ok. unfold wf_work. simpl. wf_url. Qed.

Lemma valid_wf_project o p : validate_project url_parse o = Ok p -> wf_project p.
Proof. unfold validate_project. intros H. inv_ok. unfold wf_project. simpl. wf_url. Qed.

Lemma valid_wf_education o e :
  validate_education url_parse o = Ok e -> wf_education e.
Proof. unfold validate_education. intros H. inv_ok. unfold wf_education. simpl. wf_url. Qed.

Lemma dflt_models_forall {A} n (v : obj -> res A) (P : A -> Prop) o xs :
  (forall o' x, v o' = Ok x -> P x) ->
  dflt n None [] (v_list (v_model v)) o = Ok xs -> Forall P xs.
Proof.
  intros Hv H. apply dflt_ok in H. destruct H as [-> | [j Hj]]; [constructor|].
  eapply v_list_forall; [|exact Hj].
  intros [] x Hx; simpl in Hx; try discriminate. eauto.
Qed.

Lemma valid_wf_master o p : validate_master url_parse o = Ok p -> wf_master p.
Proof.
  unfold validate_master. intros H. inv_ok. unfold wf_master. simpl.
  refine (conj _ (conj _ (conj _ _))).
  - match goal with H : req "basics" _ _ _ = Ok _ |- _ =>
      apply req_ok in H; destruct H as [[] Hb]; simpl in Hb; try discriminate
    end.
    eapply valid_wf_basics; eauto.
  - eapply dflt_models_forall; [|eassumption]. apply valid_wf_work.
  - eapply dflt_models_forall; [|eassumption]. apply valid_wf_project.
  - eapply dflt_models_forall; [|eassumption]. apply valid_wf_education.
Qed.

Lemma construct_dump ex ba data p :
  construct_master url_parse data = inr p ->
  construct_master url_parse (dump_master ex ba p) = inr p.
Proof.
  unfold construct_master. destruct data; try discriminate.
  destruct (validate_master url_parse fields) eqn:E; intros H; inversion H; subst.
  pose proof (rt_master ex ba p (valid_wf_master _ _ E)) as R.
  simpl in R |- *. rewrite R. reflexivity.
Qed.

End RoundTrip.

(** ** Error collection *)

Definition errs {A} (r : res A) : list error :=
  match r with Ok _ => [] | Err es => es end.

Lemma fmap_errs {A B} (f : A -> B) r : errs (f <$> r) = errs r.
Proof. destruct r; reflexivity. Qed.

Lemma ap_errs {A B} (rf : res (A -> B)) ra : errs (rf <*> ra) = errs rf ++ errs ra.
Proof. destruct rf, ra; simpl; rewrite ?app_nil_r; reflexivity. Qed.

Definition under (li : loc_item) (e : error) : error :=
  mk_error (li :: err_loc e) (err_type e).

Lemma prefix_errs {A} li (r : res A) : errs (prefix li r) = map (under li) (errs r).
Proof. destruct r; reflexivity. Qed.

Lemma construct_errs url_parse o e :
  In e (errs (validate_master url_parse o)) ->
  exists es, construct_master url_parse (JObj o) = inl (ValidationError es) /\ In e es.
Proof.
  simpl. destruct (validate_master url_parse o); simpl; [tauto|].
  intros H. exists es. auto.
Qed.

Lemma req_missing_errs {T} n (v : json -> res T) o :
  lookup n o = None -> In (missing_at n) (errs (req n None v o)).
Proof. intros H. unfold req, get_field. rewrite H. simpl. auto. Qed.

Ltac errs_of_chain H :=
  rewrite ?ap_errs, ?fmap_errs; rewrite ?in_app_iff; tauto.

Lemma basics_errs_master url_parse o b e :
  lookup "basics" o = Some (JObj b) ->
  In e (errs (validate_basics url_parse b)) ->
  In (under (LKey "basics") e) (errs (validate_master url_parse o)).
Proof.
  intros Hb He.
  assert (In (under (LKey "basics") e)
            (errs (req "basics" None (v_model (validate_basics url_parse)) o))) as H.
  { unfold req, get_field. rewrite Hb. simpl. rewrite prefix_errs.
    apply in_map. exact He. }
  unfold validate_master. errs_of_chain H.
Qed.

(** ** Claims on the schema *)

(** The URL parser used for concrete runs: every string is accepted as it is. *)
Definition url_id (s : string) : option string := Some s.

(** C4 (counterexample): a profile whose [basics.name] is empty and whose
    [basics.email] is not an address is constructed without error. *)
Lemma basics_unchecked_counterexample :
  construct_master url_id
    (JObj [("basics", JObj [("name", JStr ""); ("email", JStr "not-an-email")])])
  = inr (MasterProfile.mk
           (Basics.mk "" None "not-an-email" None None None None []) [] [] [] []).
Proof. reflexivity. Qed.

(** C4 (amended): [basics.name] and [basics.email] are required strings: a
    [basics] mapping without [email] (or without [name]) fails with a
    validation error located at [basics.email] (resp. [basics.name]); any
    string is accepted for either, with no emptiness or address check. *)
Theorem basics_name_email_required (url_parse : string -> option string) :
  (forall o b,
     lookup "basics" o = Some (JObj b) -> lookup "email" b = None ->
     exists es, construct_master url_parse (JObj o) = inl (ValidationError es)
                /\ In (mk_error [LKey "basics"; LKey "email"] missing) es)
  /\ (forall o b,
     lookup "basics" o = Some (JObj b) -> lookup "name" b = None ->
     exists es, construct_master url_parse (JObj o) = inl (ValidationError es)
                /\ In (mk_error [LKey "basics"; LKey "name"] missing) es)
  /\ (forall n e,
     construct_master url_parse
       (JObj [("basics", JObj [("name", JStr n); ("email", JStr e)])])
     = inr (MasterProfile.mk (Basics.mk n None e None None None None [])
              [] [] [] [])).
Proof.
  split; [|split].
  - intros o b Hb He. apply construct_errs.
    apply (basics_errs_master url_parse o b (missing_at "email") Hb).
    pose proof (req_missing_errs "email" v_str b He) as H.
    unfold validate_basics. errs_of_chain H.
  - intros o b Hb Hn. apply construct_errs.
    apply (basics_errs_master url_parse o b (missing_at "name") Hb).
    pose proof (req_missing_errs "name" v_str b Hn) as H.
    unfold validate_basics. errs_of_chain H.
  - intros n e. reflexivity.
Qed.

(** C9: a [basics.location] mapping without [city] makes construction fail
    with a missing-field error at [basics.location.city]; a location holding
    only a city is valid, every other Location field being optional. *)
Theorem location_requires_city (url_parse : string -> option string) :
  (forall o b l,
     lookup "basics" o = Some (JObj b) ->
     lookup "location" b = Some (JObj l) ->
     lookup "city" l = None ->
     exists es, construct_master url_parse (JObj o) = inl (ValidationError es)
       /\ In (mk_error [LKey "basics"; LKey "location"; LKey "city"] missing) es)
  /\ (forall c,
     validate_location [("city", JStr c)] = Ok (Location.mk None None c None None)).
Proof.
  split.
  - intros o b l Hb Hl Hc. apply construct_errs.
    apply (basics_errs_master url_parse o b
             (under (LKey "location") (missing_at "city")) Hb).
    assert (In (under (LKey "location") (missing_at "city"))
              (errs (dflt "location" None None
                       (v_opt (v_model validate_location)) b))) as H.
    { unfold dflt, get_field. rewrite Hl. simpl. rewrite prefix_errs.
      apply in_map. rewrite fmap_errs.
      pose proof (req_missing_errs "city" v_str l Hc) as H.
      unfold validate_location. errs_of_chain H. }
    unfold validate_basics. errs_of_chain H.
  - intros c. reflexivity.
Qed.

(** C10: a mapping holding only a valid [basics] entry constructs a profile
    whose [work], [projects], [education] and [skills] are all empty. *)
Theorem only_basics_empty_categories (url_parse : string -> option string)
    (b : obj) (bs : Basics.t) :
  validate_basics url_parse b = Ok bs ->
  construct_master url_parse (JObj [("basics", JObj b)])
  = inr (MasterProfile.mk bs [] [] [] []).
Proof.
  intros Hb. unfold construct_master, validate_master, req, dflt. simpl.
  rewrite Hb. reflexivity.
Qed.

(** ** Claim on the profile store *)

(** C8: a valid profile, dumped as the commands dump it
    ([model_dump(mode="json", exclude_none=True, by_alias=True)]), written
    with [write_yaml] and loaded back by [yaml.safe_load] and
    [MasterProfile( **data)], is the same profile, field for field. The
    premises are the contracts of the libraries: [HttpUrl] normalisation is
    idempotent, and YAML loads back the document it dumped. *)
Theorem store_roundtrip (url_parse : string -> option string)
    (url_parse_idem : forall s u, url_parse s = Some u -> url_parse u = Some u)
    (yaml_safe_load : string -> exn + json) (yaml_dump : json -> string)
    (data : json) (p : MasterProfile.t) (f : fs) (path : string) :
  yaml_safe_load (yaml_dump (dump_master true true p))
    = inr (dump_master true true p) ->
  construct_master url_parse data = inr p ->
  load_profile url_parse yaml_safe_load
    (write_yaml yaml_dump f (dump_master true true p) path) path = inr p.
Proof.
  intros Hyaml Hp.
  unfold load_profile, write_yaml, fs_write. rewrite String.eqb_refl.
  rewrite Hyaml. eapply construct_dump; eauto.
Qed.

(** ** Field names and aliases *)

Lemma construct_ext url_parse e o1 o2 :
  (forall n a, In (n, a) (fields_of e) -> get_field n a o1 = get_field n a o2) ->
  construct url_parse e o1 = construct url_parse e o2.
Proof.
  intros H.
  destruct e; simpl;
  unfold validate_profile, validate_location, validate_basics, validate_work,
    validate_project, validate_education, validate_skill, validate_master,
    req, dflt;
  repeat (rewrite H by (simpl; tauto)); reflexivity.
Qed.

Lemma get_field_skip k v n a o :
  k <> n -> a <> Some k -> get_field n a ((k, v) :: o) = get_field n a o.
Proof.
  intros Hn Ha. unfold get_field. destruct a as [a|]; simpl.
  - assert (a <> k) by congruence.
    apply String.eqb_neq in H. rewrite H.
    destruct (lookup a o); auto.
    apply not_eq_sym, String.eqb_neq in Hn. rewrite Hn. reflexivity.
  - apply not_eq_sym, String.eqb_neq in Hn. rewrite Hn. reflexivity.
Qed.

(** Within a model, an aliased field's name and alias are used by no other
    field, and differ from each other. *)
Lemma alias_fields_distinct e n a :
  In (n, Some a) (fields_of e) ->
  a <> n /\
  forall n' a', In (n', a') (fields_of e) -> (n', a') <> (n, Some a) ->
    n' <> n /\ n' <> a /\ a' <> Some n /\ a' <> Some a.
Proof.
  intros H1.
  destruct e; simpl in H1; decompose [or] H1; try contradiction;
  repeat match goal with
  | H : (_, _) = (_, _) |- _ => injection H; clear H; intros; subst
  end; try discriminate;
  (split; [discriminate|]);
  intros n' a' H2 H3; simpl in H2; decompose [or] H2; try contradiction;
  repeat match goal with
  | H : (_, _) = (_, _) |- _ => injection H; clear H; intros; subst
  end;
  try (exfalso; apply H3; reflexivity);
  repeat split; discriminate.
Qed.

(** The value of a validation, forgetting where its errors are located. *)
Definition ok_of {A} (r : res A) : option A :=
  match r with Ok a => Some a | Err _ => None end.

Lemma ok_of_Ok {A} (r : res A) x : r = Ok x <-> ok_of r = Some x.
Proof. destruct r; simpl; split; intros H; congruence. Qed.

Lemma ok_of_fmap {A B} (f : A -> B) r : ok_of (f <$> r) = option_map f (ok_of r).
Proof. destruct r; reflexivity. Qed.

Lemma ok_of_ap {A B} (rf : res (A -> B)) ra :
  ok_of (rf <*> ra) =
  match ok_of rf, ok_of ra with Some f, Some a => Some (f a) | _, _ => None end.
Proof. destruct rf, ra; reflexivity. Qed.

Lemma ok_of_prefix {A} li (r : res A) : ok_of (prefix li r) = ok_of r.
Proof. destruct r; reflexivity. Qed.

Lemma ok_of_req_ext {T} n al (v : json -> res T) o1 o2 :
  option_map snd (get_field n al o1) = option_map snd (get_field n al o2) ->
  ok_of (req n al v o1) = ok_of (req n al v o2).
Proof.
  unfold req.
  destruct (get_field n al o1) as [[k1 j1]|], (get_field n al o2) as [[k2 j2]|];
    simpl; intros H; try discriminate; [|reflexivity].
  injection H as ->. rewrite !ok_of_prefix. reflexivity.
Qed.

Lemma ok_of_dflt_ext {T} n al (d : T) v o1 o2 :
  option_map snd (get_field n al o1) = option_map snd (get_field n al o2) ->
  ok_of (dflt n al d v o1) = ok_of (dflt n al d v o2).
Proof.
  unfold dflt.
  destruct (get_field n al o1) as [[k1 j1]|], (get_field n al o2) as [[k2 j2]|];
    simpl; intros H; try discriminate; [|reflexivity].
  injection H as ->. rewrite !ok_of_prefix. reflexivity.
Qed.

(** Which values a construction accepts depends only on the values found
    for its fields, not on the keys they were found under. *)
Lemma construct_ok_ext url_parse e o1 o2 :
  (forall n a, In (n, a) (fields_of e) ->
     option_map snd (get_field n a o1) = option_map snd (get_field n a o2)) ->
  ok_of (construct url_parse e o1) = ok_of (construct url_parse e o2).
Proof.
  intros H.
  destruct e; simpl;
  unfold validate_profile, validate_location, validate_basics, validate_work,
    validate_project, validate_education, validate_skill, validate_master;
  repeat (rewrite ok_of_fmap || rewrite ok_of_ap);
  repeat first
    [ rewrite (ok_of_req_ext _ _ _ o1 o2) by (apply H; simpl; tauto)
    | rewrite (ok_of_dflt_ext _ _ _ _ o1 o2) by (apply H; simpl; tauto) ];
  reflexivity.
Qed.

(** C5: constructing any entity from a mapping ignores a key that is neither
    a field name nor an alias of that entity, with the very same result;
    and it accepts an aliased field under its alias or under its Python
    name alike: the same value is accepted, giving the same constructed
    value, either way (an invalid value is rejected either way, its errors
    located under the key the input used). *)
Theorem unknown_ignored_aliases_interchangeable (url_parse : string -> option string) :
  (forall e k v o,
     (forall n a, In (n, a) (fields_of e) -> k <> n /\ a <> Some k) ->
     construct url_parse e ((k, v) :: o) = construct url_parse e o)
  /\ (forall e n a v o,
     In (n, Some a) (fields_of e) ->
     lookup n o = None -> lookup a o = None ->
     forall x, construct url_parse e ((a, v) :: o) = Ok x
               <-> construct url_parse e ((n, v) :: o) = Ok x).
Proof.
  split.
  - intros e k v o Hk. apply construct_ext.
    intros n a Hin. destruct (Hk n a Hin). apply get_field_skip; auto.
  - intros e n a v o Hin Hn Ha x. rewrite !ok_of_Ok.
    rewrite (construct_ok_ext url_parse e ((a, v) :: o) ((n, v) :: o)); [reflexivity|].
    destruct (alias_fields_distinct e n a Hin) as [Han Hother].
    intros n' a' Hin'.
    destruct (string_dec n' n) as [-> | Hn'].
    + destruct a' as [a'|].
      * destruct (string_dec a' a) as [-> | Ha'].
        -- unfold get_field. simpl. rewrite String.eqb_refl.
           apply String.eqb_neq in Han. rewrite Han, Ha. simpl.
           rewrite String.eqb_refl. reflexivity.
        -- destruct (Hother n (Some a') Hin') as [C _]; [congruence|].
           congruence.
      * destruct (Hother n None Hin') as [C _]; [congruence|]. congruence.
    + assert (Hne : (n', a') <> (n, Some a)) by congruence.
      destruct (Hother n' a' Hin' Hne) as (H1 & H2 & H3 & H4).
      rewrite !get_field_skip by auto. reflexivity.
Qed.

(** ** End dates *)

Lemma req_skip {T} k x n al (v : json -> res T) o :
  k <> n -> al <> Some k -> req n al v ((k, x) :: o) = req n al v o.
Proof. intros. unfold req. rewrite get_field_skip; auto. Qed.

Lemma dflt_skip {T} k x n al (d : T) v o :
  k <> n -> al <> Some k -> dflt n al d v ((k, x) :: o) = dflt n al d v o.
Proof. intros. unfold dflt. rewrite get_field_skip; auto. Qed.

Definition with_end_work (x : option string) (w : WorkExperience.t) :=
  WorkExperience.mk (WorkExperience.name w) (WorkExperience.position w)
    (WorkExperience.url w) (WorkExperience.start_date w) x
    (WorkExperience.summary w) (WorkExperience.highlights w)
    (WorkExperience.tech_stack w).

Definition with_end_project (x : option string) (p : Project.t) :=
  Project.mk (Project.name p) (Project.description p) (Project.highlights p)
    (Project.tech_stack p) (Project.url p) (Project.start_date p) x.

Definition with_end_education (x : option string) (e : Education.t) :=
  Education.mk (Education.institution e) (Education.url e) (Education.area e)
    (Education.study_type e) (Education.start_date e) x (Education.score e)
    (Education.courses e).

Lemma work_chain_end a1 a2 a3 a4 a6 a7 a8 x :
  WorkExperience.mk <$> a1 <*> a2 <*> a3 <*> a4 <*> Ok x <*> a6 <*> a7 <*> a8
  = with_end_work x <$>
      (WorkExperience.mk <$> a1 <*> a2 <*> a3 <*> a4 <*> Ok None <*> a6 <*> a7 <*> a8).
Proof. destruct a1, a2, a3, a4, a6, a7, a8; reflexivity. Qed.

Lemma project_chain_end a1 a2 a3 a4 a5 a6 x :
  Project.mk <$> a1 <*> a2 <*> a3 <*> a4 <*> a5 <*> a6 <*> Ok x
  = with_end_project x <$>
      (Project.mk <$> a1 <*> a2 <*> a3 <*> a4 <*> a5 <*> a6 <*> Ok None).
Proof. destruct a1, a2, a3, a4, a5, a6; reflexivity. Qed.

Lemma education_chain_end a1 a2 a3 a4 a5 a7 a8 x :
  Education.mk <$> a1 <*> a2 <*> a3 <*> a4 <*> a5 <*> Ok x <*> a7 <*> a8
  = with_end_education x <$>
      (Education.mk <$> a1 <*> a2 <*> a3 <*> a4 <*> a5 <*> Ok None <*> a7 <*> a8).
Proof. destruct a1, a2, a3, a4, a5, a7, a8; reflexivity. Qed.

(** C3 (counterexample): the end date ["Present"] is kept as it is, and
    ["banana"] is accepted as an end date. *)
Lemma end_date_not_normalised_counterexample :
  validate_work url_id
    [("name", JStr "Acme"); ("position", JStr "Eng");
     ("startDate", JStr "2019"); ("endDate", JStr "Present")]
  = Ok (WorkExperience.mk "Acme" "Eng" None "2019" (Some "Present") None [] [])
  /\ validate_work url_id
    [("name", JStr "Acme"); ("position", JStr "Eng");
     ("startDate", JStr "2019"); ("endDate", JStr "banana")]
  = Ok (WorkExperience.mk "Acme" "Eng" None "2019" (Some "banana") None [] []).
Proof. split; reflexivity. Qed.

(** C3 (amended): end dates are not normalised. On a work, project or
    education entry, an [endDate] given as any string is accepted exactly
    when [endDate: null] would be, and is stored verbatim. *)
Theorem end_dates_stored_verbatim (url_parse : string -> option string) :
  (forall o s,
     validate_work url_parse (("endDate", JStr s) :: o)
     = with_end_work (Some s) <$> validate_work url_parse (("endDate", JNull) :: o))
  /\ (forall o s,
     validate_project url_parse (("endDate", JStr s) :: o)
     = with_end_project (Some s) <$>
         validate_project url_parse (("endDate", JNull) :: o))
  /\ (forall o s,
     validate_education url_parse (("endDate", JStr s) :: o)
     = with_end_education (Some s) <$>
         validate_education url_parse (("endDate", JNull) :: o)).
Proof.
  refine (conj _ (conj _ _)); intros o s;
  [unfold validate_work | unfold validate_project | unfold validate_education];
  (replace (dflt "end_date" (Some "endDate") None v_ostr (("endDate", JStr s) :: o))
     with (Ok (A := option string) (Some s)) by reflexivity);
  (replace (dflt "end_date" (Some "endDate") None v_ostr (("endDate", JNull) :: o))
     with (Ok (A := option string) None) by reflexivity);
  rewrite ?req_skip, ?dflt_skip by discriminate;
  first [apply work_chain_end | apply project_chain_end | apply education_chain_end].
Qed.

(** ** Claim on the document text extractor *)

(** C7: [extract_text_from_file] hands a [.pdf] file to the PDF reader, a
    [.docx] file to the Word reader and a [.txt] or [.md] file to the plain
    text reader, the suffix compared case-insensitively; for any other
    suffix it raises [ValueError("Unsupported file format: ...")] whatever
    the readers would do, i.e. without reading the file. *)
Theorem extract_dispatch (read_text pdf_text docx_text : string -> exn + string)
    (path : string) :
  (lower (suffix path) = ".pdf" ->
     extract_text_from_file read_text pdf_text docx_text path = pdf_text path)
  /\ (lower (suffix path) = ".docx" ->
     extract_text_from_file read_text pdf_text docx_text path = docx_text path)
  /\ (lower (suffix path) = ".txt" \/ lower (suffix path) = ".md" ->
     extract_text_from_file read_text pdf_text docx_text path = read_text path)
  /\ (~ In (lower (suffix path)) [".pdf"; ".docx"; ".txt"; ".md"] ->
     extract_text_from_file read_text pdf_text docx_text path
     = inl (ValueError ("Unsupported file format: " ++ lower (suffix path)))).
Proof.
  unfold extract_text_from_file.
  refine (conj _ (conj _ (conj _ _))).
  - intros H. rewrite H. reflexivity.
  - intros H. rewrite H. reflexivity.
  - intros [H|H]; rewrite H; reflexivity.
  - intros H.
    destruct (String.eqb_spec (lower (suffix path)) ".pdf") as [E|_];
      [exfalso; apply H; rewrite E; simpl; tauto|].
    destruct (String.eqb_spec (lower (suffix path)) ".docx") as [E|_];
      [exfalso; apply H; rewrite E; simpl; tauto|].
    destruct (String.eqb_spec (lower (suffix path)) ".txt") as [E|_];
      [exfalso; apply H; rewrite E; simpl; tauto|].
    destruct (String.eqb_spec (lower (suffix path)) ".md") as [E|_];
      [exfalso; apply H; rewrite E; simpl; tauto|].
    reflexivity.
Qed.

(** ** Claims on [merge_profile] and [update] *)

Definition basics_a : Basics.t :=
  Basics.mk "Jane Doe" None "jane@x.com" None None None None [].

Definition acme_work : WorkExperience.t :=
  WorkExperience.mk "Acme" "Eng" None "2019-01" None None ["Shipped X"] ["Python"].

Definition profile_a : MasterProfile.t :=
  MasterProfile.mk basics_a [acme_work] [] [] [].

(** A model reply keeping only the contact details. *)
Definition reply_basics_only (_ : list message) : exn + json :=
  inr (JObj [("basics", dump_basics false false basics_a)]).

(** A model reply listing the existing work entry twice. *)
Definition reply_duplicate_work (_ : list message) : exn + json :=
  inr (JObj [("basics", dump_basics false false basics_a);
             ("work", JList [dump_work false false acme_work;
                             dump_work false false acme_work])]).

(** C1 (counterexample): the existing highlight ["Shipped X"] is absent from
    the merge result when the model's reply omits it; the code accepts the
    reply as it validates. *)
Lemma merge_superset_counterexample :
  In "Shipped X" (WorkExperience.highlights acme_work)
  /\ merge_profile url_id reply_basics_only profile_a "Acme, Eng: Shipped X" None
     = inr (MasterProfile.mk basics_a [] [] [] []).
Proof. split; [left; reflexivity | reflexivity]. Qed.

(** C1 (amended): [merge_profile] computes no merge of its own: it sends
    the current profile's JSON dump and the new text to the model, and its
    result is exactly the model's reply validated as a [MasterProfile]. *)
Theorem merge_is_validated_reply (url_parse : string -> option string)
    (completion : list message -> exn + json) (current_profile : MasterProfile.t)
    (new_text : string) (images : option (list string)) (r : MasterProfile.t) :
  merge_profile url_parse completion current_profile new_text images = inr r
  <-> exists reply,
        completion (merge_messages current_profile new_text images) = inr reply
        /\ construct_master url_parse reply = inr r.
Proof.
  unfold merge_profile.
  destruct (completion (merge_messages current_profile new_text images)) as [e|reply].
  - split; [discriminate | intros (reply & H & _); discriminate].
  - split; [intros H; exists reply; auto | intros (reply' & H & H'); congruence].
Qed.

(** C2 (counterexample): merging [profile_a] with itself gives a profile
    with its work entry twice when the model's reply repeats it. *)
Lemma merge_idempotent_counterexample :
  merge_profile url_id reply_duplicate_work profile_a "Acme, Eng: Shipped X" None
  = inr (MasterProfile.mk basics_a [acme_work; acme_work] [] [] [])
  /\ MasterProfile.mk basics_a [acme_work; acme_work] [] [] [] <> profile_a.
Proof. split; [reflexivity | discriminate]. Qed.

Lemma v_list_from_length {T} (v : json -> res T) l i xs :
  v_list_from v i l = Ok xs -> length xs = length l.
Proof.
  revert i xs. induction l as [|j l IH]; intros i xs H; simpl in H.
  - inversion H; reflexivity.
  - inv_ok. simpl. f_equal.
    match goal with H : v_list_from _ _ l = Ok _ |- _ => exact (IH _ _ H) end.
Qed.

Lemma dflt_list_length {T} n (v : json -> res T) o ws xs :
  lookup n o = Some (JList ws) -> dflt n None [] (v_list v) o = Ok xs ->
  length xs = length ws.
Proof.
  intros Hl H. unfold dflt, get_field in H. rewrite Hl in H.
  apply prefix_ok in H. simpl in H. eapply v_list_from_length; eauto.
Qed.

(** C2 (amended): [merge_profile] returns the model's reply validated as a
    [MasterProfile], whatever that reply is: the existing profile only goes
    into the prompt, nothing compares the result with it, and each list of
    the result has exactly as many entries as the reply's (nothing is
    deduplicated). It returns the existing profile unchanged when the model
    replies with the JSON dump of that profile it was sent. *)
Theorem merge_echo_returns_current (url_parse : string -> option string)
    (url_parse_idem : forall s u, url_parse s = Some u -> url_parse u = Some u)
    (completion : list message -> exn + json) (data : json)
    (current_profile : MasterProfile.t) (new_text : string)
    (images : option (list string)) :
  let msgs := merge_messages current_profile new_text images in
  (forall reply, completion msgs = inr reply ->
     merge_profile url_parse completion current_profile new_text images
     = construct_master url_parse reply)
  /\ (forall e, completion msgs = inl e ->
      merge_profile url_parse completion current_profile new_text images = inl e)
  /\ (forall o p, completion msgs = inr (JObj o) ->
      merge_profile url_parse completion current_profile new_text images = inr p ->
      (forall l, lookup "work" o = Some (JList l) ->
         length (MasterProfile.work p) = length l)
      /\ (forall l, lookup "projects" o = Some (JList l) ->
         length (MasterProfile.projects p) = length l)
      /\ (forall l, lookup "education" o = Some (JList l) ->
         length (MasterProfile.education p) = length l)
      /\ (forall l, lookup "skills" o = Some (JList l) ->
         length (MasterProfile.skills p) = length l))
  /\ (construct_master url_parse data = inr current_profile ->
      completion msgs = inr (dump_master false false current_profile) ->
      merge_profile url_parse completion current_profile new_text images
      = inr current_profile).
Proof.
  simpl. unfold merge_profile.
  refine (conj _ (conj _ (conj _ _))).
  - intros reply H. rewrite H. reflexivity.
  - intros e H. rewrite H. reflexivity.
  - intros o p H. rewrite H. simpl.
    destruct (validate_master url_parse o) as [q|] eqn:E; [|discriminate].
    intros Hq. inversion Hq; subst q. clear Hq.
    unfold validate_master in E. inv_ok. simpl.
    refine (conj _ (conj _ (conj _ _))); intros l Hl;
      eapply dflt_list_length; eauto.
  - intros Hv Hc. rewrite Hc. eapply construct_dump; eauto.
Qed.

Ltac destruct_matches :=
  repeat match goal with
  | |- context [match ?x with _ => _ end] => destruct x eqn:?
  | |- context [if ?x then _ else _] => destruct x eqn:?
  end.

Lemma write_text_frame w f path c q :
  q <> path -> fst (write_text w f path c) q = f q.
Proof.
  intros H. apply String.eqb_neq in H.
  destruct w as [| |n]; simpl; unfold fs_write; try rewrite H; try reflexivity.
  destruct (Nat.ltb n (String.length c)); simpl; rewrite H; reflexivity.
Qed.

Lemma write_yaml_io_ok yaml_dump disk f data path :
  snd (write_yaml_io yaml_dump disk f data path) = true ->
  fst (write_yaml_io yaml_dump disk f data path) = write_yaml yaml_dump f data path.
Proof.
  unfold write_yaml_io, write_yaml, write_text.
  destruct (disk path) as [| |n]; simpl; try discriminate; auto.
  destruct (Nat.ltb n (String.length (yaml_dump data))); simpl; auto; discriminate.
Qed.


(** C6 (counterexample): with the disk full, a confirmed [update] whose
    merge succeeded exits with code 1 and leaves the profile file empty:
    [open(path, "w")] truncated it before [yaml.dump] failed. *)
Definition store_files : fs :=
  fun p => if String.eqb p "new.txt" then Some "Globex, Eng"
           else if String.eqb p "master-profile.yaml" then Some "basics: {}"
           else None.

Definition load_dump_a (_ : string) : exn + json :=
  inr (dump_master true true profile_a).

Definition reply_dump_a (_ : list message) : exn + json :=
  inr (dump_master false false profile_a).

Definition dump_text (_ : json) : string := "basics: {}".

Lemma update_not_atomic_counterexample :
  let o := update url_id reply_dump_a load_dump_a dump_text
             (fun s => inr s) (fun _ => inr "") (fun _ => inr "")
             (fun _ => inr []) true (fun _ => true) (fun _ => DiskFullAfter 0)
             store_files "new.txt" "master-profile.yaml" false in
  store_files "master-profile.yaml" = Some "basics: {}"
  /\ exit_code o = 1 /\ files o "master-profile.yaml" = Some "".
Proof. vm_compute. repeat split. Qed.

(** ** Witnesses: the theorems applied at concrete inputs *)

Definition url_id_idem : forall s u, url_id s = Some u -> url_id u = Some u :=
  fun s u _ => eq_refl.

Lemma basics_name_email_required_witness :
  exists es,
    construct_master url_id (JObj [("basics", JObj [("name", JStr "Jane Doe")])])
    = inl (ValidationError es)
    /\ In (mk_error [LKey "basics"; LKey "email"] missing) es.
Proof.
  apply (proj1 (basics_name_email_required url_id)
           [("basics", JObj [("name", JStr "Jane Doe")])] [("name", JStr "Jane Doe")]);
  reflexivity.
Defined.

Lemma location_requires_city_witness :
  exists es,
    construct_master url_id
      (JObj [("basics", JObj [("name", JStr "Jane Doe"); ("email", JStr "jane@x.com");
                              ("location", JObj [("region", JStr "NSW")])])])
    = inl (ValidationError es)
    /\ In (mk_error [LKey "basics"; LKey "location"; LKey "city"] missing) es.
Proof.
  apply (proj1 (location_requires_city url_id)
           [("basics", JObj [("name", JStr "Jane Doe"); ("email", JStr "jane@x.com");
                             ("location", JObj [("region", JStr "NSW")])])]
           [("name", JStr "Jane Doe"); ("email", JStr "jane@x.com");
            ("location", JObj [("region", JStr "NSW")])]
           [("region", JStr "NSW")]);
  reflexivity.
Defined.

Lemma only_basics_empty_categories_witness :
  validate_basics url_id [("name", JStr "Jane Doe"); ("email", JStr "jane@x.com")]
    = Ok basics_a
  /\ construct_master url_id
       (JObj [("basics", JObj [("name", JStr "Jane Doe"); ("email", JStr "jane@x.com")])])
     = inr (MasterProfile.mk basics_a [] [] [] []).
Proof.
  split; [reflexivity|].
  apply only_basics_empty_categories. reflexivity.
Defined.

Definition yaml_echo (j : json) (_ : string) : exn + json := inr j.
Definition yaml_blank (_ : json) : string := "".
Definition no_files : fs := fun _ => None.

Lemma store_roundtrip_witness :
  construct_master url_id (dump_master false false profile_a) = inr profile_a
  /\ load_profile url_id (yaml_echo (dump_master true true profile_a))
       (write_yaml yaml_blank no_files (dump_master true true profile_a)
          "master-profile.yaml") "master-profile.yaml"
     = inr profile_a.
Proof.
  split; [reflexivity|].
  apply (store_roundtrip url_id url_id_idem
           (yaml_echo (dump_master true true profile_a)) yaml_blank
           (dump_master false false profile_a)); reflexivity.
Defined.

Definition work_obj : obj :=
  [("name", JStr "Acme"); ("position", JStr "Eng"); ("startDate", JStr "2019")].

Definition acme_python : value :=
  VWorkExperience (WorkExperience.mk "Acme" "Eng" None "2019" None None [] ["Python"]).

Lemma unknown_ignored_aliases_interchangeable_witness :
  construct url_id EWorkExperience (("company_size", JNum 3%Z) :: work_obj)
    = construct url_id EWorkExperience work_obj
  /\ (construct url_id EWorkExperience
        (("techStack", JList [JStr "Python"]) :: work_obj) = Ok acme_python
      <-> construct url_id EWorkExperience
            (("tech_stack", JList [JStr "Python"]) :: work_obj) = Ok acme_python).
Proof.
  split.
  - apply (proj1 (unknown_ignored_aliases_interchangeable url_id)).
    intros n a H. simpl in H.
    repeat (destruct H as [H|H]; [inversion H; subst; split; discriminate|]).
    contradiction.
  - apply (proj2 (unknown_ignored_aliases_interchangeable url_id));
      [simpl; tauto | reflexivity | reflexivity].
Defined.

Definition reader (s : string) (_ : string) : exn + string := inr s.

Lemma extract_dispatch_witness :
  extract_text_from_file (reader "plain") (reader "pdf") (reader "docx") "cv/Resume.PDF"
    = inr "pdf"
  /\ extract_text_from_file (reader "plain") (reader "pdf") (reader "docx") "photo.png"
    = inl (ValueError "Unsupported file format: .png").
Proof.
  split.
  - apply (extract_dispatch (reader "plain") (reader "pdf") (reader "docx")
             "cv/Resume.PDF"). reflexivity.
  - apply (extract_dispatch (reader "plain") (reader "pdf") (reader "docx")
             "photo.png"). simpl. intuition discriminate.
Defined.

Lemma merge_is_validated_reply_witness :
  merge_profile url_id reply_basics_only profile_a "Acme, Eng" None
  = inr (MasterProfile.mk basics_a [] [] [] []).
Proof.
  apply (proj2 (merge_is_validated_reply url_id reply_basics_only profile_a
                  "Acme, Eng" None _)).
  eexists. split; reflexivity.
Defined.

Definition reply_echo (_ : list message) : exn + json :=
  inr (dump_master false false profile_a).

Lemma merge_echo_returns_current_witness :
  merge_profile url_id reply_echo profile_a "Acme, Eng" None = inr profile_a.
Proof.
  apply (proj2 (proj2 (proj2 (merge_echo_returns_current url_id url_id_idem reply_echo
           (dump_master false false profile_a) profile_a "Acme, Eng" None))));
    reflexivity.
Defined.




(** * The [add], [bootstrap] and [validate] commands, and more of the schema *)

(** ** Helpers *)

Lemma construct_wf url_parse
    (url_parse_idem : forall s u, url_parse s = Some u -> url_parse u = Some u)
    data p :
  construct_master url_parse data = inr p -> wf_master url_parse p.
Proof.
  unfold construct_master. destruct data; try discriminate.
  destruct (validate_master url_parse fields) eqn:E; intros H; inversion H; subst.
  eapply valid_wf_master; eauto.
Qed.

Lemma load_written url_parse yaml_safe_load yaml_dump f path p :
  wf_master url_parse p ->
  yaml_safe_load (yaml_dump (dump_master true true p)) = inr (dump_master true true p) ->
  load_profile url_parse yaml_safe_load
    (write_yaml yaml_dump f (dump_master true true p) path) path = inr p.
Proof.
  intros Hwf Hy.
  unfold load_profile, write_yaml, fs_write. rewrite String.eqb_refl, Hy.
  pose proof (rt_master url_parse true true p Hwf) as R.
  simpl in R |- *. rewrite R. reflexivity.
Qed.

Lemma write_yaml_frame yaml_dump f data path q :
  q <> path -> write_yaml yaml_dump f data path q = f q.
Proof.
  intros H. unfold write_yaml, fs_write.
  apply String.eqb_neq in H. rewrite H. reflexivity.
Qed.

Lemma construct_kwargs_wf {T} (v : obj -> res T) (P : T -> Prop) d x :
  (forall o y, v o = Ok y -> P y) -> construct_kwargs v d = inr x -> P x.
Proof.
  intros Hv. unfold construct_kwargs. destruct d; try discriminate.
  destruct (v fields) eqn:E; intros H; inversion H; subst. eauto.
Qed.

Lemma append_wf url_parse
    (url_parse_idem : forall s u, url_parse s = Some u -> url_parse u = Some u)
    p t d p' :
  wf_master url_parse p -> append_entity url_parse p t d = inr p' ->
  wf_master url_parse p'.
Proof.
  destruct p as [b w pr ed sk]. unfold wf_master, append_entity. simpl.
  intros (Hb & Hw & Hp & He).
  destruct (String.eqb t "work");
    [|destruct (String.eqb t "project");
      [|destruct (String.eqb t "education");
        [|destruct (String.eqb t "skill")]]];
  try discriminate;
  match goal with
  | |- context [construct_kwargs ?v d] =>
      destruct (construct_kwargs v d) as [|x] eqn:Ex; try discriminate
  end;
  intros H; inversion H; subst; simpl;
  refine (conj _ (conj _ (conj _ _))); auto;
  apply Forall_app; split; auto; constructor; auto;
  eapply construct_kwargs_wf; eauto;
  first [apply valid_wf_work | apply valid_wf_project | apply valid_wf_education];
  auto.
Qed.

Lemma v_list_from_errs {T} (v : json -> res T) l i k j e :
  nth_error l k = Some j -> In e (errs (v j)) ->
  In (under (LIdx (i + k)) e) (errs (v_list_from v i l)).
Proof.
  revert i k. induction l as [|j' l IH]; intros i k Hk He.
  - destruct k; discriminate.
  - cbn [v_list_from]. rewrite ap_errs, fmap_errs, in_app_iff.
    destruct k as [|k]; simpl in Hk.
    + inversion Hk; subst. left. rewrite Nat.add_0_r, prefix_errs.
      apply in_map. exact He.
    + right. replace (i + S k) with (S i + k) by lia. apply IH; auto.
Qed.

Lemma work_entry_errs url_parse m ws k o e :
  lookup "work" m = Some (JList ws) -> nth_error ws k = Some (JObj o) ->
  In e (errs (validate_work url_parse o)) ->
  In (under (LKey "work") (under (LIdx k) e)) (errs (validate_master url_parse m)).
Proof.
  intros Hw Hk He.
  assert (In (under (LKey "work") (under (LIdx k) e))
            (errs (dflt "work" None [] (v_list (v_model (validate_work url_parse))) m)))
    as H.
  { unfold dflt, get_field. rewrite Hw. cbn [loc_key]. rewrite prefix_errs.
    apply in_map. apply (v_list_from_errs _ _ 0 k (JObj o)); auto. }
  unfold validate_master. errs_of_chain H.
Qed.

(** ** [add] *)

(** [extract_entity] refuses an entity type outside [type_map] with
    [ValueError], before any model call; [add] then exits with code 1
    without a model call and without touching the files. *)
Theorem add_unsupported_type (url_parse : string -> option string)
    (llm : request -> exn + json) (yaml_safe_load : string -> exn + json)
    (yaml_dump : json -> string) (confirm : bool) (markup_ok : string -> bool)
    (disk : string -> write_fault) (f : fs)
    (entity_type description profile_file : string) :
  ~ In entity_type ["work"; "project"; "education"; "skill"] ->
  extract_entity llm description entity_type
    = inl (ValueError ("Unsupported entity type: " ++ entity_type))
  /\ let r := add url_parse llm yaml_safe_load yaml_dump confirm markup_ok disk f
                entity_type description profile_file in
     r_files r = f /\ r_calls r = [] /\ r_exit r = 1.
Proof.
  intros Hn.
  assert (Ht : type_map entity_type = None).
  { unfold type_map.
    destruct (String.eqb_spec entity_type "work");
      [subst; simpl in Hn; tauto|].
    destruct (String.eqb_spec entity_type "project");
      [subst; simpl in Hn; tauto|].
    destruct (String.eqb_spec entity_type "education");
      [subst; simpl in Hn; tauto|].
    destruct (String.eqb_spec entity_type "skill");
      [subst; simpl in Hn; tauto|].
    reflexivity. }
  unfold extract_entity. rewrite Ht. split; [reflexivity|].
  simpl. unfold add, extract_entity, entity_calls. rewrite Ht.
  destruct (f profile_file); [|auto].
  destruct (load_profile url_parse yaml_safe_load f profile_file); auto.
  destruct (markup_ok _); auto.
Qed.

(** The entry added by [add] goes to the end of the list named by the
    entity type: every existing entry of every list stays where it was,
    nothing is merged or deduplicated, [basics] is unchanged, and exactly
    one entry is added in total. *)
Theorem append_entity_appends (url_parse : string -> option string)
    (p : MasterProfile.t) (entity_type : string) (entity_data : json)
    (p' : MasterProfile.t) :
  append_entity url_parse p entity_type entity_data = inr p' ->
  MasterProfile.basics p' = MasterProfile.basics p
  /\ exists dw dp de ds,
       MasterProfile.work p' = MasterProfile.work p ++ dw
       /\ MasterProfile.projects p' = MasterProfile.projects p ++ dp
       /\ MasterProfile.education p' = MasterProfile.education p ++ de
       /\ MasterProfile.skills p' = MasterProfile.skills p ++ ds
       /\ length dw + length dp + length de + length ds = 1
       /\ (dw <> [] <-> entity_type = "work")
       /\ (dp <> [] <-> entity_type = "project")
       /\ (de <> [] <-> entity_type = "education")
       /\ (ds <> [] <-> entity_type = "skill").
Proof.
  destruct p as [b w pr ed sk]. unfold append_entity. simpl.
  destruct (String.eqb_spec entity_type "work");
    [|destruct (String.eqb_spec entity_type "project");
      [|destruct (String.eqb_spec entity_type "education");
        [|destruct (String.eqb_spec entity_type "skill")]]];
  try discriminate;
  match goal with
  | |- context [construct_kwargs ?v entity_data] =>
      destruct (construct_kwargs v entity_data) as [|x]; try discriminate
  end;
  intros H; inversion H; subst; simpl; split; auto;
  [ exists [x], [], [], []
  | exists [], [x], [], []
  | exists [], [], [x], []
  | exists [], [], [], [x] ];
  rewrite ?app_nil_r; repeat split; auto;
  solve [ intros C; exfalso; apply C; reflexivity
        | intros C; discriminate C
        | intros C; congruence
        | intros _ C; discriminate C ].
Qed.

(** The [else] branch of the [if/elif] chain in [add] ("Unsupported entity
    type", then [typer.Exit(code=1)]) is taken exactly for the types
    [extract_entity] has already refused, so it is dead code in [add]: once
    the type is accepted, the chain fails, if at all, only with [TypeError]
    (the model's reply is not a mapping) or pydantic's [ValidationError]. *)
Theorem append_entity_else_unreachable (url_parse : string -> option string)
    (p : MasterProfile.t) (entity_type : string) (entity_data : json) :
  (type_map entity_type = None ->
   append_entity url_parse p entity_type entity_data = inl (Exit 1))
  /\ (type_map entity_type <> None ->
      forall e, append_entity url_parse p entity_type entity_data = inl e ->
      (exists msg, e = TypeError msg) \/ (exists es, e = ValidationError es)).
Proof.
  unfold type_map, append_entity. split.
  - destruct (String.eqb entity_type "work"); [discriminate|].
    destruct (String.eqb entity_type "project"); [discriminate|].
    destruct (String.eqb entity_type "education"); [discriminate|].
    destruct (String.eqb entity_type "skill"); [discriminate|].
    reflexivity.
  - intros Ht e.
    destruct (String.eqb entity_type "work");
      [|destruct (String.eqb entity_type "project");
        [|destruct (String.eqb entity_type "education");
          [|destruct (String.eqb entity_type "skill"); [|contradiction Ht; reflexivity]]]];
    unfold construct_kwargs; destruct entity_data;
    try (intros H; inversion H; subst; left; eexists; reflexivity);
    match goal with
    | |- context [match ?v with Ok _ => _ | Err _ => _ end] => destruct v
    end;
    intros H; inversion H; subst; right; eexists; reflexivity.
Qed.


(** A confirmed [add] that exits with code 0 has made one model call, for
    the requested entity type; it has appended the entry built from the
    model's reply to the profile it loaded, and written the dump of the
    result to the profile file, leaving every other file as it was. When
    YAML reads that dump back, the profile file loads, and the [validate]
    command accepts it. *)
Theorem add_persists_appended (url_parse : string -> option string)
    (url_parse_idem : forall s u, url_parse s = Some u -> url_parse u = Some u)
    (llm : request -> exn + json) (yaml_safe_load : string -> exn + json)
    (yaml_dump : json -> string) (markup_ok : string -> bool)
    (disk : string -> write_fault) (f : fs)
    (entity_type description profile_file : string) :
  let r := add url_parse llm yaml_safe_load yaml_dump true markup_ok disk f
             entity_type description profile_file in
  r_exit r = 0 ->
  exists p entity_data p',
    load_profile url_parse yaml_safe_load f profile_file = inr p
    /\ r_calls r = [REntity entity_type description]
    /\ llm (REntity entity_type description) = inr entity_data
    /\ append_entity url_parse p entity_type entity_data = inr p'
    /\ r_files r = write_yaml yaml_dump f (dump_master true true p') profile_file
    /\ (forall q, q <> profile_file -> r_files r q = f q)
    /\ (yaml_safe_load (yaml_dump (dump_master true true p'))
          = inr (dump_master true true p') ->
        load_profile url_parse yaml_safe_load (r_files r) profile_file = inr p'
        /\ validate url_parse yaml_safe_load (r_files r) profile_file = 0).
Proof.
  simpl. unfold add.
  destruct (f profile_file) eqn:Hp; [|discriminate].
  destruct (load_profile url_parse yaml_safe_load f profile_file) as [e|cur] eqn:Hl;
    [discriminate|].
  destruct (markup_ok _); [|discriminate]. simpl.
  destruct (extract_entity llm description entity_type) as [e|d] eqn:Hx;
    [discriminate|].
  destruct (markup_ok _); [|discriminate]. simpl.
  destruct (append_entity url_parse cur entity_type d) as [e|p'] eqn:Ha;
    [discriminate|].
  simpl. intros Hex.
  assert (Hw0 : snd (write_yaml_io yaml_dump disk f (dump_master true true p')
                       profile_file) = true).
  { destruct (snd _); [reflexivity|discriminate]. }
  rewrite (write_yaml_io_ok _ _ _ _ _ Hw0). clear Hex Hw0.
  assert (Hcall : entity_calls description entity_type = [REntity entity_type description]
                  /\ llm (REntity entity_type description) = inr d).
  { unfold extract_entity, entity_calls in *.
    destruct (type_map entity_type); [auto|discriminate]. }
  destruct Hcall as [Hc Hd].
  assert (Hwf : wf_master url_parse p').
  { assert (Hc0 : exists data, construct_master url_parse data = inr cur).
    { unfold load_profile in Hl. rewrite Hp in Hl.
      destruct (yaml_safe_load s) as [|j]; [discriminate|eauto]. }
    destruct Hc0 as [data Hdata].
    eapply append_wf; eauto. eapply construct_wf; eauto. }
  exists cur, d, p'. simpl. rewrite Hc.
  split; [reflexivity|]. split; [reflexivity|]. split; [exact Hd|].
  split; [exact Ha|]. split; [reflexivity|].
  split; [intros q Hq; apply write_yaml_frame; auto|].
  intros Hy. split; [apply load_written; auto|].
  unfold validate.
  assert (Hw : write_yaml yaml_dump f (dump_master true true p') profile_file profile_file
               = Some (yaml_dump (dump_master true true p'))).
  { unfold write_yaml, fs_write. rewrite String.eqb_refl. reflexivity. }
  rewrite Hw, load_written; auto.
Qed.

(** ** [bootstrap] *)

(** [bootstrap] never overwrites an existing output file the user did not
    agree to overwrite: it aborts (exit code 1) before extracting text or
    calling the model, and the files are unchanged. *)
Theorem bootstrap_keeps_existing_output (url_parse : string -> option string)
    (llm : request -> exn + json) (yaml_dump : json -> string)
    (read_text pdf_text docx_text : string -> exn + string)
    (pdf_to_base64_images : string -> exn + list string)
    (markup_ok : string -> bool) (disk : string -> write_fault) (f : fs)
    (input_file output_file : string) (vision : bool) :
  f output_file <> None ->
  let r := bootstrap url_parse llm yaml_dump read_text pdf_text docx_text
             pdf_to_base64_images false markup_ok disk f input_file output_file
             vision in
  r_files r = f /\ r_calls r = [] /\ r_exit r = 1.
Proof.
  intros Ho. simpl. unfold bootstrap.
  destruct (f input_file); [|auto].
  destruct (f output_file); [|contradiction Ho; reflexivity].
  simpl. rewrite orb_true_r. auto.
Qed.

(** A successful [bootstrap] (exit code 0) has made exactly one model call,
    on the extracted text; the reply validated as a [MasterProfile], whose
    dump was written to the output file, every other file unchanged. When
    YAML reads that dump back, the output file loads to that same profile,
    and the [validate] command accepts it. *)
Theorem bootstrap_output_loads (url_parse : string -> option string)
    (url_parse_idem : forall s u, url_parse s = Some u -> url_parse u = Some u)
    (llm : request -> exn + json) (yaml_safe_load : string -> exn + json)
    (yaml_dump : json -> string)
    (read_text pdf_text docx_text : string -> exn + string)
    (pdf_to_base64_images : string -> exn + list string) (confirm : bool)
    (markup_ok : string -> bool) (disk : string -> write_fault)
    (f : fs) (input_file output_file : string) (vision : bool) :
  let r := bootstrap url_parse llm yaml_dump read_text pdf_text docx_text
             pdf_to_base64_images confirm markup_ok disk f input_file output_file
             vision in
  r_exit r = 0 ->
  exists raw_text images profile_data p,
    extract_text_from_file read_text pdf_text docx_text input_file = inr raw_text
    /\ r_calls r = [RBootstrap raw_text images]
    /\ llm (RBootstrap raw_text images) = inr profile_data
    /\ construct_master url_parse profile_data = inr p
    /\ r_files r = write_yaml yaml_dump f (dump_master true true p) output_file
    /\ (forall q, q <> output_file -> r_files r q = f q)
    /\ (yaml_safe_load (yaml_dump (dump_master true true p))
          = inr (dump_master true true p) ->
        load_profile url_parse yaml_safe_load (r_files r) output_file = inr p
        /\ validate url_parse yaml_safe_load (r_files r) output_file = 0).
Proof.
  simpl. unfold bootstrap.
  destruct (f input_file); [|discriminate].
  destruct (match f output_file with
            | Some _ => _ | None => false end); [discriminate|].
  destruct (markup_ok _); [|discriminate]. simpl.
  destruct (extract_text_from_file read_text pdf_text docx_text input_file)
    as [e|raw] eqn:Hx; [discriminate|].
  set (imgs := image_parts (vision_images pdf_to_base64_images input_file vision)).
  destruct (bootstrap_profile url_parse llm raw
              (vision_images pdf_to_base64_images input_file vision)) as [e|p] eqn:Hb;
    [discriminate|].
  destruct (markup_ok _); [|discriminate]. simpl.
  intros Hex.
  assert (Hw0 : snd (write_yaml_io yaml_dump disk f (dump_master true true p)
                       output_file) = true).
  { destruct (snd _); [reflexivity|discriminate]. }
  rewrite (write_yaml_io_ok _ _ _ _ _ Hw0). clear Hex Hw0.
  unfold bootstrap_profile in Hb. fold imgs in Hb.
  destruct (llm (RBootstrap raw imgs)) as [e|data] eqn:Hl; [discriminate|].
  assert (Hwf : wf_master url_parse p) by (eapply construct_wf; eauto).
  exists raw, imgs, data, p. simpl.
  split; [reflexivity|]. split; [reflexivity|]. split; [exact Hl|].
  split; [exact Hb|]. split; [reflexivity|].
  split; [intros q Hq; apply write_yaml_frame; auto|].
  intros Hy. split; [apply load_written; auto|].
  unfold validate.
  assert (Hw : write_yaml yaml_dump f (dump_master true true p) output_file output_file
               = Some (yaml_dump (dump_master true true p))).
  { unfold write_yaml, fs_write. rewrite String.eqb_refl. reflexivity. }
  rewrite Hw, load_written; auto.
Qed.

(** ** [bootstrap] and [update] *)

(** When the text cannot be extracted from the input file (an unsupported
    extension, or a reader that raises), [bootstrap] and [update] both exit
    with code 1 before any model call, leaving the files unchanged. *)
Theorem extraction_failure_no_call (url_parse : string -> option string)
    (llm : request -> exn + json) (completion : list message -> exn + json)
    (yaml_safe_load : string -> exn + json) (yaml_dump : json -> string)
    (read_text pdf_text docx_text : string -> exn + string)
    (pdf_to_base64_images : string -> exn + list string) (confirm : bool)
    (markup_ok : string -> bool) (disk : string -> write_fault)
    (f : fs) (input_file output_file : string) (vision : bool) (e : exn) :
  extract_text_from_file read_text pdf_text docx_text input_file = inl e ->
  (let r := bootstrap url_parse llm yaml_dump read_text pdf_text docx_text
              pdf_to_base64_images confirm markup_ok disk f input_file output_file
              vision in
   r_files r = f /\ r_calls r = [] /\ r_exit r = 1)
  /\ (let o := update url_parse completion yaml_safe_load yaml_dump read_text
                 pdf_text docx_text pdf_to_base64_images confirm markup_ok disk f
                 input_file output_file vision in
      files o = f /\ llm_calls o = [] /\ exit_code o = 1).
Proof.
  intros Hx. split; simpl.
  - unfold bootstrap. destruct (f input_file); [|auto].
    destruct (match f output_file with Some _ => _ | None => false end);
      [auto|].
    destruct (markup_ok _); simpl; [|auto]. rewrite Hx. auto.
  - unfold update. destruct (f input_file), (f output_file); auto.
    destruct (markup_ok _); simpl; [|auto].
    destruct (load_profile url_parse yaml_safe_load f output_file); auto.
    destruct (markup_ok _); simpl; [|auto].
    rewrite Hx. auto.
Qed.

(** Page images only matter when there are some: when the input is not a
    PDF, or [pdf_to_base64_images] fails or returns no page, [bootstrap]
    and [update] with [--vision] behave exactly as without it. *)
Theorem vision_fallback (url_parse : string -> option string)
    (llm : request -> exn + json) (completion : list message -> exn + json)
    (yaml_safe_load : string -> exn + json) (yaml_dump : json -> string)
    (read_text pdf_text docx_text : string -> exn + string)
    (pdf_to_base64_images : string -> exn + list string) (confirm : bool)
    (markup_ok : string -> bool) (disk : string -> write_fault)
    (f : fs) (input_file output_file : string) :
  lower (suffix input_file) <> ".pdf"
  \/ pdf_to_base64_images input_file = inr []
  \/ (exists e, pdf_to_base64_images input_file = inl e) ->
  bootstrap url_parse llm yaml_dump read_text pdf_text docx_text
    pdf_to_base64_images confirm markup_ok disk f input_file output_file true
  = bootstrap url_parse llm yaml_dump read_text pdf_text docx_text
      pdf_to_base64_images confirm markup_ok disk f input_file output_file false
  /\ update url_parse completion yaml_safe_load yaml_dump read_text pdf_text
       docx_text pdf_to_base64_images confirm markup_ok disk f input_file
       output_file true
     = update url_parse completion yaml_safe_load yaml_dump read_text pdf_text
         docx_text pdf_to_base64_images confirm markup_ok disk f input_file
         output_file false.
Proof.
  intros H.
  assert (Hv : vision_images pdf_to_base64_images input_file true = None
               \/ vision_images pdf_to_base64_images input_file true = Some []).
  { unfold vision_images.
    destruct (String.eqb_spec (lower (suffix input_file)) ".pdf") as [E|E];
      [|left; reflexivity].
    simpl. destruct H as [H|[H|[e H]]]; [contradiction|right|left]; rewrite H;
      reflexivity. }
  assert (Hf : vision_images pdf_to_base64_images input_file false = None).
  { unfold vision_images. rewrite andb_false_r. reflexivity. }
  split.
  - unfold bootstrap, bootstrap_profile. rewrite Hf.
    destruct Hv as [Hv|Hv]; rewrite Hv; reflexivity.
  - unfold update. rewrite andb_false_r.
    unfold vision_images in Hv.
    destruct Hv as [Hv|Hv]; rewrite Hv; reflexivity.
Qed.

(** ** [update] *)

(** A confirmed [update] that exits with code 0 has loaded the stored
    profile and the new file's text, made one model call with the merge
    prompt, and written the dump of the validated reply to the profile
    file, every other file unchanged. When YAML reads that dump back, the
    profile file loads to the merged profile and [validate] accepts it. *)
Theorem update_persists_merged (url_parse : string -> option string)
    (url_parse_idem : forall s u, url_parse s = Some u -> url_parse u = Some u)
    (completion : list message -> exn + json)
    (yaml_safe_load : string -> exn + json) (yaml_dump : json -> string)
    (read_text pdf_text docx_text : string -> exn + string)
    (pdf_to_base64_images : string -> exn + list string)
    (markup_ok : string -> bool) (disk : string -> write_fault)
    (f : fs) (new_resume_file profile_file : string) (vision : bool) :
  let o := update url_parse completion yaml_safe_load yaml_dump read_text
             pdf_text docx_text pdf_to_base64_images true markup_ok disk f
             new_resume_file profile_file vision in
  exit_code o = 0 ->
  exists current raw_text images merged,
    load_profile url_parse yaml_safe_load f profile_file = inr current
    /\ extract_text_from_file read_text pdf_text docx_text new_resume_file
       = inr raw_text
    /\ llm_calls o = [merge_messages current raw_text images]
    /\ merge_profile url_parse completion current raw_text images = inr merged
    /\ files o = write_yaml yaml_dump f (dump_master true true merged) profile_file
    /\ (forall q, q <> profile_file -> files o q = f q)
    /\ (yaml_safe_load (yaml_dump (dump_master true true merged))
          = inr (dump_master true true merged) ->
        load_profile url_parse yaml_safe_load (files o) profile_file = inr merged
        /\ validate url_parse yaml_safe_load (files o) profile_file = 0).
Proof.
  simpl. unfold update.
  destruct (f new_resume_file), (f profile_file); try discriminate.
  destruct (markup_ok _); [|discriminate]. simpl.
  destruct (load_profile url_parse yaml_safe_load f profile_file) as [e|cur] eqn:Hl;
    [discriminate|].
  destruct (markup_ok _); [|discriminate]. simpl.
  destruct (extract_text_from_file read_text pdf_text docx_text new_resume_file)
    as [e|raw] eqn:Hx; [discriminate|].
  match goal with
  | |- context [merge_profile url_parse completion cur raw ?im] =>
      set (imgs := im)
  end.
  destruct (merge_profile url_parse completion cur raw imgs) as [e|m] eqn:Hm;
    [discriminate|].
  simpl. intros Hex.
  assert (Hw0 : snd (write_yaml_io yaml_dump disk f (dump_master true true m)
                       profile_file) = true).
  { destruct (snd _); [reflexivity|discriminate]. }
  rewrite (write_yaml_io_ok _ _ _ _ _ Hw0). clear Hex Hw0.
  assert (Hwf : wf_master url_parse m).
  { unfold merge_profile in Hm.
    destruct (completion (merge_messages cur raw imgs)); [discriminate|].
    eapply construct_wf; eauto. }
  exists cur, raw, imgs, m. simpl.
  split; [reflexivity|]. split; [reflexivity|]. split; [reflexivity|].
  split; [exact Hm|]. split; [reflexivity|].
  split; [intros q Hq; apply write_yaml_frame; auto|].
  intros Hy. split; [apply load_written; auto|].
  unfold validate.
  assert (Hw : write_yaml yaml_dump f (dump_master true true m) profile_file profile_file
               = Some (yaml_dump (dump_master true true m))).
  { unfold write_yaml, fs_write. rewrite String.eqb_refl. reflexivity. }
  rewrite Hw, load_written; auto.
Qed.

(** ** The schema *)

(** With [populate_by_name=True], an aliased field present under its alias
    is read from there: a key with the field's Python name next to it is
    ignored, whatever its value. *)
Theorem alias_takes_precedence (url_parse : string -> option string)
    (e : entity) (n a : string) (v : json) (o : obj) :
  In (n, Some a) (fields_of e) -> lookup a o <> None ->
  construct url_parse e ((n, v) :: o) = construct url_parse e o.
Proof.
  intros Hin Ha. apply construct_ext.
  destruct (alias_fields_distinct e n a Hin) as [Han Hother].
  intros n' a' Hin'.
  destruct (string_dec n' n) as [-> | Hn'].
  - destruct a' as [a'|].
    + destruct (string_dec a' a) as [-> | Ha'].
      * unfold get_field. simpl.
        apply String.eqb_neq in Han. rewrite Han.
        destruct (lookup a o); [reflexivity|contradiction Ha; reflexivity].
      * destruct (Hother n (Some a') Hin') as [C _]; congruence.
    + destruct (Hother n None Hin') as [C _]; congruence.
  - assert (Hne : (n', a') <> (n, Some a)) by congruence.
    destruct (Hother n' a' Hin' Hne) as (H1 & H2 & H3 & H4).
    apply get_field_skip; auto.
Qed.

(** [MasterProfile( **data)] does not coerce a non-string [startDate] of a
    work entry (an unquoted YAML year is an integer): validation fails, with
    a [string_type] error located at [work], the entry's index, [startDate]. *)
Theorem work_start_date_not_coerced (url_parse : string -> option string)
    (m : obj) (ws : list json) (k : nat) (o : obj) (j : json) :
  lookup "work" m = Some (JList ws) ->
  nth_error ws k = Some (JObj o) ->
  lookup "startDate" o = Some j ->
  (forall s, j <> JStr s) ->
  exists es,
    construct_master url_parse (JObj m) = inl (ValidationError es)
    /\ In (mk_error [LKey "work"; LIdx k; LKey "startDate"] string_type) es.
Proof.
  intros Hw Hk Hs Hj.
  assert (He : In (mk_error [LKey "startDate"] string_type)
                 (errs (validate_work url_parse o))).
  { assert (H : In (mk_error [LKey "startDate"] string_type)
                  (errs (req "start_date" (Some "startDate") v_str o))).
    { unfold req, get_field. rewrite Hs. cbn [loc_key]. rewrite prefix_errs.
      destruct j; try (exfalso; eapply Hj; reflexivity); simpl; auto. }
    unfold validate_work. errs_of_chain H. }
  apply construct_errs.
  exact (work_entry_errs url_parse m ws k o _ Hw Hk He).
Qed.

(** A list field given an explicit null is rejected with [list_type] at
    that field, whereas an absent one defaults to the empty list: [null] is
    not "no entries". *)
Theorem null_list_rejected (url_parse : string -> option string) (m : obj) (c : string) :
  In c ["work"; "projects"; "education"; "skills"] ->
  lookup c m = Some JNull ->
  exists es,
    construct_master url_parse (JObj m) = inl (ValidationError es)
    /\ In (mk_error [LKey c] list_type) es.
Proof.
  intros Hc Hn. apply construct_errs.
  assert (Hd : forall T (v : json -> res T),
             In (mk_error [LKey c] list_type) (errs (dflt c None [] (v_list v) m))).
  { intros T v. unfold dflt, get_field. rewrite Hn. simpl. auto. }
  unfold validate_master.
  simpl in Hc. decompose [or] Hc; try contradiction; subst;
  match goal with
  | |- context [dflt ?c None [] (v_list ?v) m] =>
      let H := fresh in pose proof (Hd _ v) as H; errs_of_chain H
  end.
Qed.

(** Validation reports every error at once, not the first one only: errors
    in [basics] and in a work entry appear together in the one
    [ValidationError], each at its own location. *)
Theorem errors_accumulate (url_parse : string -> option string)
    (m b : obj) (ws : list json) (k : nat) (o : obj) (e1 e2 : error) :
  lookup "basics" m = Some (JObj b) ->
  In e1 (errs (validate_basics url_parse b)) ->
  lookup "work" m = Some (JList ws) ->
  nth_error ws k = Some (JObj o) ->
  In e2 (errs (validate_work url_parse o)) ->
  exists es,
    construct_master url_parse (JObj m) = inl (ValidationError es)
    /\ In (under (LKey "basics") e1) es
    /\ In (under (LKey "work") (under (LIdx k) e2)) es.
Proof.
  intros Hb He1 Hw Hk He2.
  pose proof (basics_errs_master url_parse m b e1 Hb He1) as H1.
  pose proof (work_entry_errs url_parse m ws k o e2 Hw Hk He2) as H2.
  simpl. destruct (validate_master url_parse m); [contradiction|].
  exists es. auto.
Qed.

(** ** [tailor] *)

Lemma all_strs_some l :
  all_strs l <> None <-> Forall (fun j => exists s, j = JStr s) l.
Proof.
  induction l as [|j l IH]; simpl.
  - split; [constructor|discriminate].
  - destruct j;
      try (split; [intros C; contradiction C; reflexivity
                  |intros H; inversion H as [|? ? [s' C]]; discriminate C]).
    rewrite Forall_cons_iff, <- IH.
    destruct (all_strs l); simpl; split.
    + intros _. split; [eauto|discriminate].
    + intros _. discriminate.
    + intros C; contradiction C; reflexivity.
    + intros [_ C]. exact C.
Qed.

(** [tailor] asks for the tailored profile only after the job analysis
    came back and its keyword preview was printed. The preview needs the
    analysis to be a dict whose first five keywords are strings (later
    entries are not looked at), and rich must render the printed line (a
    keyword such as [[/x]] raises [MarkupError]); when either fails, the
    command ends with code 1 after the one analysis call, the files
    untouched. *)
Theorem tailor_needs_keyword_preview (url_parse : string -> option string)
    (llm : request -> exn + json) (yaml_safe_load : string -> exn + json)
    (yaml_dump : json -> string) (read_text : string -> exn + string)
    (render_pdf : fs -> MasterProfile.t -> string -> string -> fs * bool)
    (markup_ok : string -> bool) (disk : string -> write_fault)
    (f : fs) (job_description_file profile_file theme output : string) :
  let r := tailor url_parse llm yaml_safe_load yaml_dump read_text render_pdf
             markup_ok disk f job_description_file profile_file theme output in
  (forall a pd, In (RTailor a pd) (r_calls r) ->
     exists jd_text kw,
       read_text job_description_file = inr jd_text
       /\ r_calls r = [RAnalyze jd_text; RTailor a pd]
       /\ llm (RAnalyze jd_text) = inr a
       /\ keywords_preview a = Some kw
       /\ markup_ok ("   [dim]Keywords: " ++ kw ++ "...[/dim]")%string = true)
  /\ (forall profile jd_text a,
      f profile_file <> None -> f job_description_file <> None ->
      markup_ok ("[info]Loading profile from " ++ profile_file ++ "...[/info]")%string
        = true ->
      load_profile url_parse yaml_safe_load f profile_file = inr profile ->
      read_text job_description_file = inr jd_text ->
      llm (RAnalyze jd_text) = inr a ->
      keywords_preview a = None
      \/ (exists kw, keywords_preview a = Some kw
                     /\ markup_ok ("   [dim]Keywords: " ++ kw ++ "...[/dim]")%string
                        = false) ->
      r_calls r = [RAnalyze jd_text] /\ r_exit r = 1 /\ r_files r = f)
  /\ (forall o l, lookup "keywords" o = Some (JList l) ->
      keywords_preview (JObj o) <> None
      <-> Forall (fun j => exists s, j = JStr s) (firstn 5 l)).
Proof.
  refine (conj _ (conj _ _)).
  - simpl. unfold tailor.
    destruct (f profile_file), (f job_description_file);
      try (simpl; tauto).
    destruct (markup_ok _); [|simpl; tauto]. simpl.
    destruct (load_profile url_parse yaml_safe_load f profile_file) as [|p];
      [simpl; tauto|].
    destruct (read_text job_description_file) as [|jd] eqn:Hr; [simpl; tauto|].
    unfold analyze_job_description.
    destruct (llm (RAnalyze jd)) as [|a] eqn:Ha;
      [simpl; intros ? ? [C|C]; [discriminate|contradiction]|].
    destruct (keywords_preview a) as [kw|] eqn:Hk;
      [|simpl; intros ? ? [C|C]; [discriminate|contradiction]].
    destruct (markup_ok _) eqn:Hm;
      [|simpl; intros ? ? [C|C]; [discriminate|contradiction]].
    simpl.
    match goal with
    | |- forall a' pd, In _ (r_calls ?R) -> _ =>
        assert (Hc : r_calls R = [RAnalyze jd; RTailor a (dump_master false false p)])
          by (destruct_matches; reflexivity);
        rewrite Hc
    end.
    intros a' pd Hin.
    (destruct Hin as [C|[C|C]]; [discriminate| |contradiction]).
    inversion C; subst; exists jd, kw; repeat split; auto.
  - intros profile jd a Hp Hj Hm Hl Hr Ha Hk. simpl. unfold tailor.
    destruct (f profile_file); [|contradiction Hp; reflexivity].
    destruct (f job_description_file); [|contradiction Hj; reflexivity].
    rewrite Hm. cbn [negb]. rewrite Hl, Hr. unfold analyze_job_description. rewrite Ha.
    destruct Hk as [Hk|(kw & Hk & Hk')]; rewrite Hk; [|rewrite Hk'];
      simpl; auto.
  - intros o l Hl. unfold keywords_preview. rewrite Hl.
    rewrite <- all_strs_some.
    destruct (all_strs (firstn 5 l)); simpl; split; auto; discriminate.
Qed.

(** Besides what rendering writes to [output], [tailor] writes one file:
    [output.with_suffix(".yaml")], which is otherwise left as it was. When
    the command gets that far and the write completes, that file holds the
    dump of the validated tailored profile, whatever it held before: nothing
    checks that it is not the master profile itself, so with
    [-o master-profile.pdf] next to [master-profile.yaml] the canonical
    profile is replaced by the tailored one. *)
Theorem tailor_writes_yaml_beside_output (url_parse : string -> option string)
    (llm : request -> exn + json) (yaml_safe_load : string -> exn + json)
    (yaml_dump : json -> string) (read_text : string -> exn + string)
    (render_pdf : fs -> MasterProfile.t -> string -> string -> fs * bool)
    (markup_ok : string -> bool) (disk : string -> write_fault)
    (f : fs) (job_description_file profile_file theme output : string) :
  (forall g p t q, q <> output -> fst (render_pdf g p t output) q = g q) ->
  let r := tailor url_parse llm yaml_safe_load yaml_dump read_text render_pdf
             markup_ok disk f job_description_file profile_file theme output in
  (forall q, q <> output -> (forall y, with_suffix output ".yaml" = Some y -> q <> y) ->
     r_files r q = f q)
  /\ (forall y, with_suffix output ".yaml" = Some y -> y <> output ->
      r_files r y = f y
      \/ exists profile jd_text analysis tailored,
           load_profile url_parse yaml_safe_load f profile_file = inr profile
           /\ read_text job_description_file = inr jd_text
           /\ llm (RAnalyze jd_text) = inr analysis
           /\ tailor_profile url_parse llm profile analysis = inr tailored
           /\ r_files r y
              = fst (write_yaml_io yaml_dump disk f (dump_master true true tailored) y) y)
  /\ (forall profile jd_text analysis kw tailored y,
      f profile_file <> None -> f job_description_file <> None ->
      markup_ok ("[info]Loading profile from " ++ profile_file ++ "...[/info]")%string
        = true ->
      load_profile url_parse yaml_safe_load f profile_file = inr profile ->
      read_text job_description_file = inr jd_text ->
      llm (RAnalyze jd_text) = inr analysis ->
      keywords_preview analysis = Some kw ->
      markup_ok ("   [dim]Keywords: " ++ kw ++ "...[/dim]")%string = true ->
      tailor_profile url_parse llm profile analysis = inr tailored ->
      with_suffix output ".yaml" = Some y -> y <> output ->
      markup_ok ("[info]Saving tailored profile data to " ++ y ++ "...[/info]")%string
        = true ->
      disk y = WriteOk ->
      r_files r y = Some (yaml_dump (dump_master true true tailored))).
Proof.
  intros Hrender. cbv zeta.
  refine (conj _ (conj _ _)).
  - intros q Hq Hqy. unfold tailor, analyze_job_description.
    destruct_matches; simpl; auto;
      try (unfold write_yaml_io; apply write_text_frame; apply Hqy; reflexivity);
    match goal with
    | H : _ = (?g', _) |- ?g' q = _ =>
        pose proof (f_equal (fun x => fst x q) H) as R; cbv beta in R;
        rewrite Hrender in R by exact Hq; cbn [fst] in R; rewrite <- R
    end;
    unfold write_yaml_io; apply write_text_frame; apply Hqy; reflexivity.
  - intros y Hy Hyo. unfold tailor, analyze_job_description. destruct_matches; simpl;
      try (left; reflexivity); right; injection Hy as ->;
      do 4 eexists;
      (refine (conj _ (conj _ (conj _ (conj _ _))));
       [first [reflexivity | eassumption]..|]);
      first
        [ reflexivity
        | match goal with
          | H : _ = (?g', _) |- ?g' y = _ =>
              pose proof (f_equal (fun x => fst x y) H) as R; cbv beta in R;
              rewrite Hrender in R by exact Hyo; cbn [fst] in R; rewrite <- R;
              reflexivity
          end ].
  - intros profile jd_text analysis kw tailored y Hp Hj Hm1 Hl Hr Ha Hk Hm2 Ht Hy Hyo
      Hm3 Hd.
    unfold tailor, analyze_job_description.
    destruct (f profile_file); [|contradiction Hp; reflexivity].
    destruct (f job_description_file); [|contradiction Hj; reflexivity].
    rewrite Hm1. cbn [negb]. rewrite Hl, Hr, Ha, Hk, Hm2. cbn [negb].
    rewrite Ht, Hy, Hm3. cbn [negb].
    unfold write_yaml_io. rewrite Hd. cbn [write_text fst snd negb].
    destruct (render_pdf (fs_write f y (yaml_dump (dump_master true true tailored)))
                tailored theme output) as [g ok] eqn:Hg.
    simpl.
    pose proof (Hrender (fs_write f y (yaml_dump (dump_master true true tailored)))
                  tailored theme y Hyo) as R.
    rewrite Hg in R. simpl in R. rewrite R.
    unfold fs_write. rewrite String.eqb_refl. reflexivity.
Qed.

(** ** [init] *)



(** ** File-name suffixes *)

Lemma string_append_empty_r s : String.append s "" = s.
Proof. induction s as [|c s IH]; simpl; [|rewrite IH]; reflexivity. Qed.

Lemma string_append_assoc a b c :
  String.append (String.append a b) c = String.append a (String.append b c).
Proof. induction a as [|x a IH]; simpl; [|rewrite IH]; reflexivity. Qed.

(** Whatever comes before the last ['/'] only decides the fallback. *)
Lemma name_acc_slash d n cur last :
  exists last', name_acc (String.append d (String "/" n)) cur last = name_acc n "" last'.
Proof.
  revert cur last. induction d as [|c d IH]; intros cur last; simpl.
  - eexists. reflexivity.
  - destruct (Ascii.eqb c "/"); apply IH.
Qed.

Lemma name_acc_noslash s cur last :
  (forall c, In c (list_ascii_of_string s) -> c <> "/"%char) ->
  name_acc s cur last
  = if kept_part (String.append cur s) then String.append cur s else last.
Proof.
  revert cur. induction s as [|c s IH]; intros cur H; simpl.
  - rewrite string_append_empty_r. reflexivity.
  - assert (Hc : Ascii.eqb c "/" = false).
    { apply Ascii.eqb_neq. apply H. simpl. auto. }
    rewrite Hc, IH by (intros c' Hc'; apply H; simpl; auto).
    rewrite string_append_assoc. reflexivity.
Qed.

Lemma basename_last_component dir name :
  (forall c, In c (list_ascii_of_string name) -> c <> "/"%char) ->
  kept_part name = true ->
  basename (String.append dir (String "/" name)) = name /\ basename name = name.
Proof.
  intros H K. unfold basename.
  destruct (name_acc_slash dir name "" "") as [l' ->].
  rewrite !name_acc_noslash by exact H. simpl. rewrite K. split; reflexivity.
Qed.

Lemma rfind_dot_nodot s i found :
  (forall c, In c (list_ascii_of_string s) -> c <> "."%char) ->
  rfind_dot s i found = found.
Proof.
  revert i found. induction s as [|c s IH]; intros i found H; simpl.
  - reflexivity.
  - assert (Hc : Ascii.eqb c "." = false).
    { apply Ascii.eqb_neq. apply H. simpl. auto. }
    rewrite Hc. apply IH. intros c' Hc'. apply H. simpl. auto.
Qed.

(** [extract_text_from_file] dispatches on the suffix of the last path
    component [pathlib] keeps: for a file name [name] (no ['/'], neither
    empty nor ["."]), any directory in front of it, dots included, leaves
    the suffix that of [name]. A file whose only dot is its first
    character, such as [.txt] or [.md], has no suffix for [pathlib] and is
    refused as an unsupported format. *)
Theorem suffix_last_component_dotfiles :
  (forall dir name,
     (forall c, In c (list_ascii_of_string name) -> c <> "/"%char) ->
     kept_part name = true ->
     suffix (String.append dir (String "/" name)) = suffix name)
  /\ (forall (read_text pdf_text docx_text : string -> exn + string) dir ext,
       ext <> "" ->
       (forall c, In c (list_ascii_of_string ext) -> c <> "."%char /\ c <> "/"%char) ->
       extract_text_from_file read_text pdf_text docx_text
         (String.append dir (String "/" (String "." ext)))
       = inl (ValueError "Unsupported file format: ")).
Proof.
  split.
  - intros dir name H K. unfold suffix.
    destruct (basename_last_component dir name H K) as [-> ->]. reflexivity.
  - intros read_text pdf_text docx_text dir ext Hne H.
    assert (Hs : forall c, In c (list_ascii_of_string (String "." ext)) -> c <> "/"%char).
    { intros c [<-|Hc]; [discriminate|]. apply H; exact Hc. }
    assert (K : kept_part (String "." ext) = true).
    { unfold kept_part. destruct ext as [|e ext']; [contradiction Hne; reflexivity|].
      reflexivity. }
    unfold extract_text_from_file, suffix.
    destruct (basename_last_component dir _ Hs K) as [-> _].
    simpl. rewrite rfind_dot_nodot by (intros c Hc; apply H; exact Hc).
    reflexivity.
Qed.

(** ** Witnesses of the further properties *)

(** A console that renders every message and a disk that takes every
    write. *)
Definition markup_all (_ : string) : bool := true.
Definition disk_ok (_ : string) : write_fault := WriteOk.

Definition files_profile : fs :=
  fun p => if String.eqb p "master-profile.yaml" then Some "basics: {}"
           else if String.eqb p "resume.txt" then Some "Jane Doe, Acme, Eng"
           else if String.eqb p "photo.png" then Some "PNG"
           else if String.eqb p "jd.txt" then Some "Backend role"
           else None.

(** YAML that reads every file as the dump of [profile_a]. *)
Definition yaml_profile : string -> exn + json :=
  yaml_echo (dump_master true true profile_a).

Definition llm_work (_ : request) : exn + json := inr (JObj work_obj).

Definition llm_profile (_ : request) : exn + json :=
  inr (dump_master false false profile_a).

Definition added_work : WorkExperience.t :=
  WorkExperience.mk "Acme" "Eng" None "2019" None None [] [].

Definition profile_added : MasterProfile.t :=
  MasterProfile.mk basics_a [acme_work; added_work] [] [] [].

Lemma add_unsupported_type_witness :
  ~ In "certificate" ["work"; "project"; "education"; "skill"]
  /\ r_calls (add url_id llm_work yaml_profile yaml_blank true markup_all disk_ok files_profile
                "certificate" "AWS Solutions Architect" "master-profile.yaml") = [].
Proof.
  assert (H : ~ In "certificate" ["work"; "project"; "education"; "skill"])
    by (simpl; intuition discriminate).
  split; [exact H|].
  destruct (add_unsupported_type url_id llm_work yaml_profile yaml_blank true
              markup_all disk_ok files_profile "certificate" "AWS Solutions Architect"
              "master-profile.yaml" H) as [_ [_ [Hc _]]].
  exact Hc.
Defined.

Lemma append_entity_appends_witness :
  append_entity url_id profile_a "work" (JObj work_obj) = inr profile_added
  /\ MasterProfile.basics profile_added = MasterProfile.basics profile_a.
Proof.
  assert (H : append_entity url_id profile_a "work" (JObj work_obj) = inr profile_added)
    by reflexivity.
  split; [exact H|].
  exact (proj1 (append_entity_appends url_id profile_a "work" (JObj work_obj)
                  profile_added H)).
Defined.

Lemma append_entity_else_unreachable_witness :
  append_entity url_id profile_a "certificate" JNull = inl (Exit 1)
  /\ forall e, append_entity url_id profile_a "skill" JNull = inl e ->
       (exists msg, e = TypeError msg) \/ (exists es, e = ValidationError es).
Proof.
  split.
  - apply (proj1 (append_entity_else_unreachable url_id profile_a "certificate" JNull)).
    reflexivity.
  - apply (proj2 (append_entity_else_unreachable url_id profile_a "skill" JNull)).
    discriminate.
Defined.

Lemma add_persists_appended_witness :
  r_exit (add url_id llm_work yaml_profile yaml_blank true markup_all disk_ok files_profile "work"
            "Acme, Eng since 2019" "master-profile.yaml") = 0
  /\ exists p d p',
       load_profile url_id yaml_profile files_profile "master-profile.yaml" = inr p
       /\ append_entity url_id p "work" d = inr p'.
Proof.
  assert (H : r_exit (add url_id llm_work yaml_profile yaml_blank true markup_all disk_ok files_profile
                        "work" "Acme, Eng since 2019" "master-profile.yaml") = 0)
    by reflexivity.
  split; [exact H|].
  destruct (add_persists_appended url_id url_id_idem llm_work yaml_profile yaml_blank
              markup_all disk_ok files_profile "work" "Acme, Eng since 2019" "master-profile.yaml" H)
    as (p & d & p' & H1 & _ & _ & H4 & _).
  exists p, d, p'. split; assumption.
Defined.

Lemma bootstrap_keeps_existing_output_witness :
  files_profile "master-profile.yaml" <> None
  /\ r_calls (bootstrap url_id llm_profile yaml_blank (reader "plain") (reader "pdf")
                (reader "docx") (fun _ => inr []) false markup_all disk_ok files_profile "resume.txt"
                "master-profile.yaml" false) = [].
Proof.
  assert (H : files_profile "master-profile.yaml" <> None) by discriminate.
  split; [exact H|].
  destruct (bootstrap_keeps_existing_output url_id llm_profile yaml_blank
              (reader "plain") (reader "pdf") (reader "docx") (fun _ => inr []) markup_all disk_ok
              files_profile "resume.txt" "master-profile.yaml" false H)
    as [_ [Hc _]].
  exact Hc.
Defined.

Lemma bootstrap_output_loads_witness :
  r_exit (bootstrap url_id llm_profile yaml_blank (reader "plain") (reader "pdf")
            (reader "docx") (fun _ => inr []) true markup_all disk_ok files_profile "resume.txt"
            "new-profile.yaml" false) = 0
  /\ exists raw_text images data p,
       llm_profile (RBootstrap raw_text images) = inr data
       /\ construct_master url_id data = inr p.
Proof.
  assert (H : r_exit (bootstrap url_id llm_profile yaml_blank (reader "plain")
                        (reader "pdf") (reader "docx") (fun _ => inr []) true markup_all disk_ok
                        files_profile "resume.txt" "new-profile.yaml" false) = 0)
    by reflexivity.
  split; [exact H|].
  destruct (bootstrap_output_loads url_id url_id_idem llm_profile yaml_profile yaml_blank
              (reader "plain") (reader "pdf") (reader "docx") (fun _ => inr []) true markup_all disk_ok
              files_profile "resume.txt" "new-profile.yaml" false H)
    as (raw & imgs & data & p & _ & _ & H3 & H4 & _).
  exists raw, imgs, data, p. split; assumption.
Defined.

Lemma extraction_failure_no_call_witness :
  extract_text_from_file (reader "plain") (reader "pdf") (reader "docx") "photo.png"
    = inl (ValueError "Unsupported file format: .png")
  /\ r_calls (bootstrap url_id llm_profile yaml_blank (reader "plain") (reader "pdf")
                (reader "docx") (fun _ => inr []) true markup_all disk_ok files_profile "photo.png"
                "new-profile.yaml" false) = []
  /\ llm_calls (update url_id reply_echo yaml_profile yaml_blank (reader "plain")
                  (reader "pdf") (reader "docx") (fun _ => inr []) true markup_all disk_ok files_profile
                  "photo.png" "master-profile.yaml" false) = [].
Proof.
  assert (H : extract_text_from_file (reader "plain") (reader "pdf") (reader "docx")
                "photo.png" = inl (ValueError "Unsupported file format: .png"))
    by reflexivity.
  split; [exact H|].
  destruct (extraction_failure_no_call url_id llm_profile reply_echo yaml_profile
              yaml_blank (reader "plain") (reader "pdf") (reader "docx")
              (fun _ => inr []) true markup_all disk_ok files_profile "photo.png" "master-profile.yaml"
              false _ H) as [[_ [H1 _]] [_ [H2 _]]].
  split; [|exact H2].
  destruct (extraction_failure_no_call url_id llm_profile reply_echo yaml_profile
              yaml_blank (reader "plain") (reader "pdf") (reader "docx")
              (fun _ => inr []) true markup_all disk_ok files_profile "photo.png" "new-profile.yaml"
              false _ H) as [[_ [H3 _]] _].
  exact H3.
Defined.

Lemma vision_fallback_witness :
  (fun _ : string => @inr exn (list string) []) "cv.pdf" = inr []
  /\ r_calls (bootstrap url_id llm_profile yaml_blank (reader "plain") (reader "pdf")
                (reader "docx") (fun _ => inr []) true markup_all disk_ok files_profile "cv.pdf"
                "new-profile.yaml" true)
     = r_calls (bootstrap url_id llm_profile yaml_blank (reader "plain") (reader "pdf")
                  (reader "docx") (fun _ => inr []) true markup_all disk_ok files_profile "cv.pdf"
                  "new-profile.yaml" false).
Proof.
  assert (H : (fun _ : string => @inr exn (list string) []) "cv.pdf" = inr [])
    by reflexivity.
  split; [exact H|].
  destruct (vision_fallback url_id llm_profile reply_echo yaml_profile yaml_blank
              (reader "plain") (reader "pdf") (reader "docx")
              (fun _ => inr []) true markup_all disk_ok files_profile "cv.pdf" "new-profile.yaml"
              (or_intror (or_introl H))) as [E _].
  rewrite E. reflexivity.
Defined.

Lemma update_persists_merged_witness :
  exit_code (update url_id reply_echo yaml_profile yaml_blank (reader "plain")
               (reader "pdf") (reader "docx") (fun _ => inr []) true markup_all disk_ok files_profile
               "resume.txt" "master-profile.yaml" false) = 0
  /\ exists current raw_text images merged,
       merge_profile url_id reply_echo current raw_text images = inr merged.
Proof.
  assert (H : exit_code (update url_id reply_echo yaml_profile yaml_blank
                           (reader "plain") (reader "pdf") (reader "docx")
                           (fun _ => inr []) true markup_all disk_ok files_profile "resume.txt"
                           "master-profile.yaml" false) = 0) by reflexivity.
  split; [exact H|].
  destruct (update_persists_merged url_id url_id_idem reply_echo yaml_profile yaml_blank
              (reader "plain") (reader "pdf") (reader "docx") (fun _ => inr []) markup_all disk_ok
              files_profile "resume.txt" "master-profile.yaml" false H)
    as (c & raw & imgs & m & _ & _ & _ & H4 & _).
  exists c, raw, imgs, m. exact H4.
Defined.

Lemma alias_takes_precedence_witness :
  In ("start_date", Some "startDate") (fields_of EWorkExperience)
  /\ lookup "startDate" work_obj <> None
  /\ construct url_id EWorkExperience (("start_date", JStr "2018") :: work_obj)
     = construct url_id EWorkExperience work_obj.
Proof.
  assert (H1 : In ("start_date", Some "startDate") (fields_of EWorkExperience))
    by (simpl; tauto).
  assert (H2 : lookup "startDate" work_obj <> None) by discriminate.
  split; [exact H1|]. split; [exact H2|].
  exact (alias_takes_precedence url_id EWorkExperience "start_date" "startDate"
           (JStr "2018") work_obj H1 H2).
Defined.

Definition basics_obj : obj :=
  [("name", JStr "Jane Doe"); ("email", JStr "jane@x.com")].

Definition year_work : obj :=
  [("name", JStr "Acme"); ("position", JStr "Eng"); ("startDate", JNum 2019%Z)].

Lemma work_start_date_not_coerced_witness :
  exists es,
    construct_master url_id
      (JObj [("basics", JObj basics_obj); ("work", JList [JObj year_work])])
    = inl (ValidationError es)
    /\ In (mk_error [LKey "work"; LIdx 0; LKey "startDate"] string_type) es.
Proof.
  apply (work_start_date_not_coerced url_id
           [("basics", JObj basics_obj); ("work", JList [JObj year_work])]
           [JObj year_work] 0 year_work (JNum 2019%Z)); try reflexivity.
  intros s C. discriminate C.
Defined.

Lemma null_list_rejected_witness :
  exists es,
    construct_master url_id (JObj [("basics", JObj basics_obj); ("skills", JNull)])
    = inl (ValidationError es)
    /\ In (mk_error [LKey "skills"] list_type) es.
Proof.
  apply (null_list_rejected url_id [("basics", JObj basics_obj); ("skills", JNull)]
           "skills"); [simpl; tauto | reflexivity].
Defined.

Lemma errors_accumulate_witness :
  exists es,
    construct_master url_id
      (JObj [("basics", JObj [("name", JStr "Jane Doe")]);
             ("work", JList [JObj [("name", JStr "Acme"); ("startDate", JStr "2019")]])])
    = inl (ValidationError es)
    /\ In (under (LKey "basics") (mk_error [LKey "email"] missing)) es
    /\ In (under (LKey "work") (under (LIdx 0) (mk_error [LKey "position"] missing))) es.
Proof.
  apply (errors_accumulate url_id
           [("basics", JObj [("name", JStr "Jane Doe")]);
            ("work", JList [JObj [("name", JStr "Acme"); ("startDate", JStr "2019")]])]
           [("name", JStr "Jane Doe")]
           [JObj [("name", JStr "Acme"); ("startDate", JStr "2019")]] 0
           [("name", JStr "Acme"); ("startDate", JStr "2019")]);
  try reflexivity; simpl; tauto.
Defined.

(** A renderer that writes the PDF to [output] only. *)
Definition render_stub (g : fs) (_ : MasterProfile.t) (_ output : string) : fs * bool :=
  (fs_write g output "%PDF", true).

Definition llm_tailor (rq : request) : exn + json :=
  match rq with
  | RAnalyze _ => inr (JObj [("keywords", JList [JStr "Python"])])
  | _ => inr (dump_master false false profile_a)
  end.

(** A YAML dumper whose output marks the tailored profile. *)
Definition yaml_marker (_ : json) : string := "tailored profile".

Definition analysis_py : json := JObj [("keywords", JList [JStr "Python"])].

Lemma tailor_writes_yaml_beside_output_witness :
  (forall g p t q, q <> "master-profile.pdf" ->
     fst (render_stub g p t "master-profile.pdf") q = g q)
  /\ files_profile "master-profile.yaml" = Some "basics: {}"
  /\ r_files (tailor url_id llm_tailor yaml_profile yaml_marker (reader "Backend role")
               render_stub markup_all disk_ok files_profile "jd.txt"
               "master-profile.yaml" "standard" "master-profile.pdf")
       "master-profile.yaml"
     = Some "tailored profile".
Proof.
  assert (H : forall g p t q, q <> "master-profile.pdf" ->
                fst (render_stub g p t "master-profile.pdf") q = g q).
  { intros g p t q Hq. unfold render_stub, fs_write. simpl.
    apply String.eqb_neq in Hq. rewrite Hq. reflexivity. }
  split; [exact H|]. split; [reflexivity|].
  exact (proj2 (proj2 (tailor_writes_yaml_beside_output url_id llm_tailor yaml_profile
           yaml_marker (reader "Backend role") render_stub markup_all disk_ok
           files_profile "jd.txt" "master-profile.yaml" "standard" "master-profile.pdf" H))
           profile_a "Backend role" analysis_py "Python" profile_a "master-profile.yaml"
           ltac:(discriminate) ltac:(discriminate) eq_refl eq_refl eq_refl eq_refl eq_refl
           eq_refl eq_refl eq_refl ltac:(discriminate) eq_refl eq_refl).
Defined.


